(** * Sovereign recursion core: ledger, layer checks, score, loop controller

    A shallow embedding of [sovereign_recursion/ledger.py],
    [sovereign_recursion/recursion_engine.py] and
    [sovereign_recursion/loop_runner.py], followed by the theorems that
    settle the specification's properties.

    Modelling conventions, used throughout:
    - a Python [str] is a Rocq [string], read as its UTF-8 bytes; case
      mapping and [strip] act on the ASCII range of it; a [str] that has
      no UTF-8 encoding (one holding a lone surrogate) is not represented;
    - a Python [int] is a [Z]; a Python [float] is carried by its [repr]
      (the shortest text that reads back to the same float), which is what
      [json.dumps] prints;
    - a value that went through [json] is a [json] term; a [dict] keeps its
      items as an association list in insertion order;
    - a Python exception is the [Raise] case of [result];
    - a [set] of strings is a [gset string]; a [dict] from [str] to [str]
      that is only read by key and assigned by key is a
      [gmap string string]. *)

From Stdlib Require Import ZArith String Ascii List Permutation.
From stdpp Require Import gmap strings list fin_maps pretty.
Import ListNotations.

Set Warnings "-register-all".

Local Open Scope string_scope.
Local Open Scope Z_scope.

(* ===================================================================== *)
(** ** Python values and library functions used by the sources *)
(* ===================================================================== *)

Module Py.

(** Exceptions the modelled code can raise. *)
Inductive exn :=
| ValueError (msg : string)
| AttributeError
| TypeError
| FileNotFoundError
| SystemExit (msg : string).

Inductive result (A : Type) :=
| Ok (a : A)
| Raise (e : exn).
Arguments Ok {A} a.
Arguments Raise {A} e.

Definition bind {A B} (r : result A) (k : A -> result B) : result B :=
  match r with
  | Ok a => k a
  | Raise e => Raise e
  end.

Definition is_ok {A} (r : result A) : bool :=
  match r with Ok _ => true | Raise _ => false end.

(** [str.isspace] on the ASCII range: TAB, LF, VT, FF, CR, FS, GS, RS, US
    and the space. *)
Definition isspace (c : ascii) : bool :=
  let n := Z.of_N (N_of_ascii c) in
  ((9 <=? n) && (n <=? 13)) || ((28 <=? n) && (n <=? 32)).

Fixpoint lstrip (s : string) : string :=
  match s with
  | String c t => if isspace c then lstrip t else s
  | EmptyString => EmptyString
  end.

(** [rstrip]: a character is dropped when it is a space and everything
    after it was dropped. *)
Fixpoint rstrip (s : string) : string :=
  match s with
  | String c t =>
      match rstrip t with
      | EmptyString => if isspace c then EmptyString else String c EmptyString
      | t' => String c t'
      end
  | EmptyString => EmptyString
  end.

Definition strip (s : string) : string := rstrip (lstrip s).

Definition upper_char (c : ascii) : ascii :=
  let n := N_of_ascii c in
  if ((97 <=? n) && (n <=? 122))%N then ascii_of_N (n - 32) else c.

Definition lower_char (c : ascii) : ascii :=
  let n := N_of_ascii c in
  if ((65 <=? n) && (n <=? 90))%N then ascii_of_N (n + 32) else c.

Fixpoint map_chars (f : ascii -> ascii) (s : string) : string :=
  match s with
  | String c t => String (f c) (map_chars f t)
  | EmptyString => EmptyString
  end.

Definition upper : string -> string := map_chars upper_char.
Definition lower : string -> string := map_chars lower_char.

(** [sep.join(parts)]. *)
Fixpoint join (sep : string) (parts : list string) : string :=
  match parts with
  | [] => ""
  | [p] => p
  | p :: rest => p ++ sep ++ join sep rest
  end.

(** [l.append(x)], for its effect on [l]. *)
Definition push {A : Type} (l : list A) (x : A) : list A := (l ++ [x])%list.

Fixpoint insert_sorted (x : string) (l : list string) : list string :=
  match l with
  | [] => [x]
  | y :: rest => if String.leb x y then x :: l else y :: insert_sorted x rest
  end.

(** [sorted(l)] for a list of strings. *)
Definition sorted (l : list string) : list string := fold_right insert_sorted [] l.

(** [str(n)] for an [int]. *)
Definition str_of_int (z : Z) : string := pretty z.

(** The f-string conversion [{n:0wd}] of a non-negative [int]. *)
Definition zero_pad (width : nat) (z : Z) : string :=
  let s := str_of_int z in
  String.concat "" (repeat "0" (width - String.length s)) ++ s.

End Py.
Export Py.

(* ===================================================================== *)
(** ** JSON documents and [json.dumps] *)
(* ===================================================================== *)

Module Json.

Inductive json :=
| JNull
| JBool (b : bool)
| JInt (z : Z)
| JFloat (repr : string)
| JStr (s : string)
| JArr (items : list json)
| JObj (items : list (string * json)).

(** [d.get(key)]: the value bound to [key], if any. *)
Fixpoint lookup_key (key : string) (d : list (string * json)) : option json :=
  match d with
  | [] => None
  | (k, v) :: rest => if String.eqb k key then Some v else lookup_key key rest
  end.

(** [d.pop(key, None)], for its effect on [d]. *)
Definition pop_key (key : string) (d : list (string * json)) : list (string * json) :=
  List.filter (fun kv => negb (String.eqb (fst kv) key)) d.

(** [d[key] = v]: replaces the binding in place, or adds it at the end. *)
Fixpoint set_key (key : string) (v : json) (d : list (string * json))
  : list (string * json) :=
  match d with
  | [] => [(key, v)]
  | (k, w) :: rest =>
      if String.eqb k key then (k, v) :: rest else (k, w) :: set_key key v rest
  end.

Definition hex_digit (n : Z) : ascii :=
  ascii_of_N (Z.to_N (if n <? 10 then 48 + n else 87 + n)).

(** One character of a string literal printed by [json.dumps] with
    [ensure_ascii=False]: the quote, the backslash and the control
    characters are escaped, everything else is printed as it is. *)
Definition escape_char (c : ascii) : string :=
  let n := Z.of_N (N_of_ascii c) in
  if n =? 34 then "\" ++ String c ""
  else if n =? 92 then "\\"
  else if n =? 10 then "\n"
  else if n =? 13 then "\r"
  else if n =? 9 then "\t"
  else if n =? 8 then "\b"
  else if n =? 12 then "\f"
  else if n <? 32 then
    "\u00" ++ String (hex_digit (n / 16)) (String (hex_digit (n mod 16)) "")
  else String c "".

Fixpoint escape (s : string) : string :=
  match s with
  | String c t => escape_char c ++ escape t
  | EmptyString => ""
  end.

Definition quote (s : string) : string :=
  String (ascii_of_N 34) (escape s) ++ String (ascii_of_N 34) "".

(** Insertion of a rendered item into a list sorted by key. *)
Fixpoint insert_item (kv : string * string) (l : list (string * string))
  : list (string * string) :=
  match l with
  | [] => [kv]
  | kv' :: rest =>
      if String.leb (fst kv) (fst kv') then kv :: l
      else kv' :: insert_item kv rest
  end.

(** [sort_keys=True]. *)
Definition sort_items (l : list (string * string)) : list (string * string) :=
  fold_right insert_item [] l.

(** [json.dumps] of a float: its [repr], but for the three non-finite
    values. *)
Definition float_json (r : string) : string :=
  if String.eqb r "nan" then "NaN"
  else if String.eqb r "inf" then "Infinity"
  else if String.eqb r "-inf" then "-Infinity"
  else r.

(** [json.dumps(obj, sort_keys=True, separators=(",", ":"),
    ensure_ascii=False)]. *)
Fixpoint _canonical_json (obj : json) : string :=
  match obj with
  | JNull => "null"
  | JBool true => "true"
  | JBool false => "false"
  | JInt z => str_of_int z
  | JFloat r => float_json r
  | JStr s => quote s
  | JArr items => "[" ++ join "," (List.map _canonical_json items) ++ "]"
  | JObj items =>
      "{" ++ join ","
        (List.map (fun kv => quote (fst kv) ++ ":" ++ snd kv)
           (sort_items
              (List.map (fun kv => (fst kv, _canonical_json (snd kv))) items)))
      ++ "}"
  end.

Fixpoint contains_char (c : ascii) (s : string) : bool :=
  match s with
  | String c' t => Ascii.eqb c c' || contains_char c t
  | EmptyString => false
  end.

(** One character inside [repr(s)], [q] being the quote chosen. *)
Definition repr_char (q c : ascii) : string :=
  let n := Z.of_N (N_of_ascii c) in
  if Ascii.eqb c q || (n =? 92) then "\" ++ String c ""
  else if n =? 9 then "\t"
  else if n =? 10 then "\n"
  else if n =? 13 then "\r"
  else if (n <? 32) || (n =? 127) then
    "\x" ++ String (hex_digit (n / 16)) (String (hex_digit (n mod 16)) "")
  else String c "".

(** [repr(s)] of a string: single quotes, unless the text has a single
    quote and no double quote. *)
Definition repr_str (s : string) : string :=
  let sq := ascii_of_N 39 in
  let dq := ascii_of_N 34 in
  let q := if contains_char sq s && negb (contains_char dq s) then dq else sq in
  String q (String.concat "" (List.map (repr_char q) (list_ascii_of_string s)))
  ++ String q "".

(** [repr(v)]. *)
Fixpoint py_repr (v : json) : string :=
  match v with
  | JNull => "None"
  | JBool true => "True"
  | JBool false => "False"
  | JInt z => str_of_int z
  | JFloat r => r
  | JStr s => repr_str s
  | JArr items => "[" ++ join ", " (List.map py_repr items) ++ "]"
  | JObj items =>
      "{" ++ join ", "
        (List.map (fun kv => repr_str (fst kv) ++ ": " ++ py_repr (snd kv)) items)
      ++ "}"
  end.

(** [str(v)]. *)
Definition py_str (v : json) : string :=
  match v with
  | JStr s => s
  | _ => py_repr v
  end.

(** [iter(v)], as the list of the values it yields: the items of a list,
    the characters of a string, the keys of a dict; anything else is not
    iterable. *)
Definition py_iter (v : json) : result (list json) :=
  match v with
  | JArr items => Ok items
  | JStr s => Ok (List.map (fun c => JStr (String c "")) (list_ascii_of_string s))
  | JObj items => Ok (List.map (fun kv => JStr (fst kv)) items)
  | _ => Raise TypeError
  end.

End Json.
Export Json.


(* ===================================================================== *)
(** ** [hashlib.sha256] (FIPS 180-4), on 32-bit words carried by [Z] *)
(* ===================================================================== *)

Module Sha256.

Definition wrap32 (x : Z) : Z := x mod 2 ^ 32.
Definition add32 (x y : Z) : Z := wrap32 (x + y).
Definition rotr (n x : Z) : Z :=
  Z.lor (Z.shiftr x n) (wrap32 (Z.shiftl x (32 - n))).
Definition not32 (x : Z) : Z := Z.lxor x (2 ^ 32 - 1).

Definition ch (x y z : Z) : Z := Z.lxor (Z.land x y) (Z.land (not32 x) z).
Definition maj (x y z : Z) : Z :=
  Z.lxor (Z.lxor (Z.land x y) (Z.land x z)) (Z.land y z).
Definition big_sigma0 (x : Z) : Z := Z.lxor (Z.lxor (rotr 2 x) (rotr 13 x)) (rotr 22 x).
Definition big_sigma1 (x : Z) : Z := Z.lxor (Z.lxor (rotr 6 x) (rotr 11 x)) (rotr 25 x).
Definition small_sigma0 (x : Z) : Z := Z.lxor (Z.lxor (rotr 7 x) (rotr 18 x)) (Z.shiftr x 3).
Definition small_sigma1 (x : Z) : Z := Z.lxor (Z.lxor (rotr 17 x) (rotr 19 x)) (Z.shiftr x 10).

(** The first sixty-four primes; the round constants and the initial
    state are the leading fractional bits of their cube and square
    roots. *)
Definition primes : list Z :=
  [2; 3; 5; 7; 11; 13; 17; 19; 23; 29; 31; 37; 41; 43; 47; 53;
   59; 61; 67; 71; 73; 79; 83; 89; 97; 101; 103; 107; 109; 113; 127; 131;
   137; 139; 149; 151; 157; 163; 167; 173; 179; 181; 191; 193; 197; 199; 211; 223;
   227; 229; 233; 239; 241; 251; 257; 263; 269; 271; 277; 281; 283; 293; 307; 311].

(** Integer cube root of [n], built from bit [bits - 1] downwards. *)
Fixpoint cube_root_bits (bits : nat) (n r : Z) : Z :=
  match bits with
  | O => r
  | S b =>
      let r' := r + 2 ^ Z.of_nat b in
      cube_root_bits b n (if r' * r' * r' <=? n then r' else r)
  end.

Definition round_constants : list Z :=
  Eval vm_compute in
    List.map (fun p => wrap32 (cube_root_bits 36 (p * 2 ^ 96) 0)) primes.

Definition initial_state : list Z :=
  Eval vm_compute in
    List.map (fun p => wrap32 (Z.sqrt (p * 2 ^ 64))) (firstn 8 primes).

Definition bytes_of_string (s : string) : list Z :=
  List.map (fun c => Z.of_N (N_of_ascii c)) (list_ascii_of_string s).

(** Big-endian bytes of [x], [n] of them. *)
Fixpoint be_bytes (n : nat) (x : Z) : list Z :=
  match n with
  | O => []
  | S m => (Z.shiftr x (8 * Z.of_nat m)) mod 256 :: be_bytes m x
  end.

(** Message padding: the bit 1, zeros up to 56 modulo 64 bytes, then the
    bit length on eight bytes. *)
Definition pad (msg : list Z) : list Z :=
  let len := Z.of_nat (length msg) in
  msg ++ [128] ++ repeat 0 (Z.to_nat ((55 - len) mod 64)) ++ be_bytes 8 (8 * len).

Fixpoint words_of_bytes (bs : list Z) : list Z :=
  match bs with
  | a :: b :: c :: d :: rest =>
      (((a * 256 + b) * 256 + c) * 256 + d) :: words_of_bytes rest
  | _ => []
  end.

(** The message schedule, newest word first: [rev_w] holds
    [W(t-1); W(t-2); ...]. *)
Fixpoint extend_schedule (n : nat) (rev_w : list Z) : list Z :=
  match n with
  | O => rev_w
  | S m =>
      let w := add32 (add32 (small_sigma1 (nth 1 rev_w 0)) (nth 6 rev_w 0))
                     (add32 (small_sigma0 (nth 14 rev_w 0)) (nth 15 rev_w 0)) in
      extend_schedule m (w :: rev_w)
  end.

Definition schedule (block : list Z) : list Z :=
  List.rev (extend_schedule 48 (List.rev block)).

Record registers := Regs { ra : Z; rb : Z; rc : Z; rd : Z; re : Z; rf : Z; rg : Z; rh : Z }.

Definition round (s : registers) (kw : Z * Z) : registers :=
  let t1 := add32 (add32 (add32 (rh s) (big_sigma1 (re s))) (ch (re s) (rf s) (rg s)))
                  (add32 (fst kw) (snd kw)) in
  let t2 := add32 (big_sigma0 (ra s)) (maj (ra s) (rb s) (rc s)) in
  Regs (add32 t1 t2) (ra s) (rb s) (rc s) (add32 (rd s) t1) (re s) (rf s) (rg s).

Definition compress (s : registers) (block : list Z) : registers :=
  let s' := fold_left round (combine round_constants (schedule block)) s in
  Regs (add32 (ra s) (ra s')) (add32 (rb s) (rb s')) (add32 (rc s) (rc s'))
       (add32 (rd s) (rd s')) (add32 (re s) (re s')) (add32 (rf s) (rf s'))
       (add32 (rg s) (rg s')) (add32 (rh s) (rh s')).

(** The padded message, sixteen words at a time. *)
Fixpoint blocks (n : nat) (ws : list Z) : list (list Z) :=
  match n with
  | O => []
  | S m => firstn 16 ws :: blocks m (skipn 16 ws)
  end.

Definition digest_words (msg : list Z) : list Z :=
  let ws := words_of_bytes (pad msg) in
  let s0 :=
    Regs (nth 0 initial_state 0) (nth 1 initial_state 0) (nth 2 initial_state 0)
         (nth 3 initial_state 0) (nth 4 initial_state 0) (nth 5 initial_state 0)
         (nth 6 initial_state 0) (nth 7 initial_state 0) in
  let s := fold_left compress (blocks (length ws / 16) ws) s0 in
  [ra s; rb s; rc s; rd s; re s; rf s; rg s; rh s].

Definition hex_of_byte (b : Z) : string :=
  String (hex_digit (b / 16)) (String (hex_digit (b mod 16)) "").

Definition hexdigest (msg : list Z) : string :=
  String.concat "" (List.map hex_of_byte (flat_map (be_bytes 4) (digest_words msg))).

(** [hashlib.sha256(text.encode("utf-8")).hexdigest()]. *)
Definition _sha256_text (text : string) : string :=
  hexdigest (bytes_of_string text).

End Sha256.
Export Sha256.

(* ===================================================================== *)
(** ** [sovereign_recursion/ledger.py] *)
(* ===================================================================== *)

Module ledger.

(** A loop body that may raise, run over a list: the loop stops at the
    first exception. *)
Fixpoint for_each {S A : Type} (body : S -> A -> result S) (xs : list A) (s : S)
  : result S :=
  match xs with
  | [] => Ok s
  | x :: rest => bind (body s x) (for_each body rest)
  end.

(** [enumerate(xs, start)]. *)
Fixpoint enumerate {A : Type} (start : Z) (xs : list A) : list (Z * A) :=
  match xs with
  | [] => []
  | x :: rest => (start, x) :: enumerate (start + 1) rest
  end.

(** One physical line of the ledger file, as the readers see it after
    [line.strip()] and [json.loads]: empty, rejected with
    [JSONDecodeError], or parsed to a value. Only such files are
    represented: the file decodes as UTF-8 and [json.loads] handles each
    of its lines. A file on which the reader raises [UnicodeDecodeError],
    and a line on which [json.loads] raises anything but
    [JSONDecodeError] (an integer literal above the digit limit, nesting
    beyond the recursion limit), are outside the model; every file that
    [append] writes is inside it. *)
Inductive line :=
| Blank
| Invalid
| Doc (obj : json).

(** The ledger file: [None] while it does not exist. *)
Definition file := option (list line).

(** The readings of [utc_iso()] and [time.time()] taken by one call. *)
Record clock := Clock { now_iso : string; now_unix : string }.

Record LedgerEntry := {
  ts_utc : string;
  ts_unix : string;
  layer : string;
  event_type : string;
  data : list (string * json);
  engine_version : string;
  previous_hash : string;
  layer_previous_hash : string;
  proof : option string;
  hash : option string
}.

Definition with_hash (e : LedgerEntry) (h : option string) : LedgerEntry :=
  {| ts_utc := ts_utc e; ts_unix := ts_unix e; layer := layer e;
     event_type := event_type e; data := data e;
     engine_version := engine_version e; previous_hash := previous_hash e;
     layer_previous_hash := layer_previous_hash e; proof := proof e;
     hash := h |}.

Definition to_dict (self : LedgerEntry) : list (string * json) :=
  [ ("ts_utc", JStr (ts_utc self));
    ("ts_unix", JFloat (ts_unix self));
    ("layer", JStr (layer self));
    ("type", JStr (event_type self));
    ("data", JObj (data self));
    ("engine_version", JStr (engine_version self));
    ("previous_hash", JStr (previous_hash self));
    ("layer_previous_hash", JStr (layer_previous_hash self)) ]
  ++ match proof self with Some p => [("proof", JStr p)] | None => [] end
  ++ match hash self with Some h => [("hash", JStr h)] | None => [] end.

Definition compute_hash (self : LedgerEntry) : string :=
  _sha256_text (_canonical_json (JObj (pop_key "hash" (to_dict self)))).

(** The ledger object: the file at [ledger_path] is passed to each
    method and returned by it. *)
Record UniversalLedger := {
  ledger_engine_version : string;
  _last_global_hash : string;
  _last_layer_hash : gmap string string
}.

(** [_iter_entries]: the parsed lines, in file order. *)
Definition _iter_entries (f : file) : list json :=
  match f with
  | None => []
  | Some lines =>
      omap (fun ln => match ln with Doc obj => Some obj | _ => None end) lines
  end.




(** The body of the re-indexing loop of [append], on the pair
    [(prev_global, prev_layer)]. *)
Definition reindex_line (st : string * gmap string string) (ln : line)
  : result (string * gmap string string) :=
  match ln with
  | Blank => Ok st
  | Invalid => Ok st
  | Doc (JObj d) =>
      match lookup_key "hash" d, lookup_key "layer" d with
      | Some (JStr h), Some (JStr lyr) => Ok (h, <[lyr := h]> (snd st))
      | _, _ => Ok st
      end
  | Doc _ => Raise AttributeError
  end.

(** The lines read from a file opened with ["a+"]: none when the file
    did not exist. *)
Definition lines_of (f : file) : list line :=
  match f with Some ls => ls | None => [] end.

(** [append]. The file is opened with ["a+"], so a missing file is read
    as an empty one and exists afterwards. The result holds the returned
    hash, the ledger object and the lines of the file after the call;
    when the call raises, neither the object nor the file has changed. *)
Definition append (self : UniversalLedger) (now : clock)
    (layer event_type data : json) (proof : option string) (f : file)
  : result (string * UniversalLedger * list line) :=
  match layer with
  | JStr (String c l) =>
      let layer := String c l in
      match event_type with
      | JStr (String c' t) =>
          let event_type := String c' t in
          match data with
          | JObj data =>
              let lines := lines_of f in
              bind (for_each reindex_line lines ("", ∅)) (fun st =>
                let prev_global := fst st in
                let prev_layer := snd st in
                let entry :=
                  {| ts_utc := now_iso now; ts_unix := now_unix now;
                     layer := layer; event_type := event_type; data := data;
                     engine_version := ledger_engine_version self;
                     previous_hash := prev_global;
                     layer_previous_hash := default "" (prev_layer !! layer);
                     proof := proof; hash := None |} in
                let h := compute_hash entry in
                let entry := with_hash entry (Some h) in
                Ok (h,
                    {| ledger_engine_version := ledger_engine_version self;
                       _last_global_hash := h;
                       _last_layer_hash := <[layer := h]> (_last_layer_hash self) |},
                    push lines (Doc (JObj (to_dict entry)))))
          | _ => Raise (ValueError "data must be a dict")
          end
      | _ => Raise (ValueError "event_type must be a non-empty string")
      end
  | _ => Raise (ValueError "layer must be a non-empty string")
  end.

(** The local variables of the loop of [verify]. *)
Record scan := {
  ok : bool;
  reasons : list string;
  total : Z;
  prev_global : string;
  prev_layer : gmap string string
}.

Definition flag (st : scan) (reason : string) : scan :=
  {| ok := false; reasons := push (reasons st) reason; total := total st;
     prev_global := prev_global st; prev_layer := prev_layer st |}.

Definition reason_at (idx : Z) (what : string) : string :=
  "line " ++ str_of_int idx ++ ": " ++ what.

(** [v != s] for a parsed value [v] and a string [s]. *)
Definition differs (v : json) (s : string) : bool :=
  match v with
  | JStr t => negb (String.eqb t s)
  | _ => true
  end.

(** The body of the loop of [verify]. *)
Definition verify_line (st : scan) (il : Z * line) : result scan :=
  let idx := fst il in
  match snd il with
  | Blank => Ok st
  | Invalid =>
      Ok (flag {| ok := ok st; reasons := reasons st; total := total st + 1;
                  prev_global := prev_global st; prev_layer := prev_layer st |}
               (reason_at idx "invalid json"))
  | Doc obj =>
      let st := {| ok := ok st; reasons := reasons st; total := total st + 1;
                   prev_global := prev_global st; prev_layer := prev_layer st |} in
      match obj with
      | JObj d =>
          match lookup_key "hash" d, lookup_key "layer" d with
          | Some (JStr h), Some (JStr layer) =>
              let computed := _sha256_text (_canonical_json (JObj (pop_key "hash" d))) in
              let st := if negb (String.eqb computed h)
                        then flag st (reason_at idx "hash mismatch") else st in
              let st := if differs (default (JStr "") (lookup_key "previous_hash" d))
                                   (prev_global st)
                        then flag st (reason_at idx "global previous_hash mismatch")
                        else st in
              let expected_layer_prev := default "" (prev_layer st !! layer) in
              let st := if differs (default (JStr "") (lookup_key "layer_previous_hash" d))
                                   expected_layer_prev
                        then flag st (reason_at idx "layer_previous_hash mismatch")
                        else st in
              Ok {| ok := ok st; reasons := reasons st; total := total st;
                    prev_global := h; prev_layer := <[layer := h]> (prev_layer st) |}
          | _, _ => Ok (flag st (reason_at idx "missing hash/layer"))
          end
      | _ => Raise AttributeError
      end
  end.

(** The report returned by [verify]; its ["ledger_path"] and ["ts_utc"]
    entries echo the path and the clock and are left out. *)
Record report := {
  report_ok : bool;
  total_entries : Z;
  report_reasons : list string
}.

(** [verify]. It raises [FileNotFoundError] on a missing file, and
    [AttributeError] as soon as a line parsed to a value that has no
    [get]; it catches [JSONDecodeError] only. The exceptions of the
    source on the files that [line] leaves out (the reader's
    [UnicodeDecodeError], which is raised in the [for] statement, outside
    the [try]) are not part of this definition. *)
Definition verify (f : file) : result report :=
  match f with
  | None => Raise FileNotFoundError
  | Some lines =>
      bind (for_each verify_line (enumerate 1 lines)
              {| ok := true; reasons := []; total := 0; prev_global := "";
                 prev_layer := ∅ |})
           (fun st => Ok {| report_ok := ok st; total_entries := total st;
                            report_reasons := reasons st |})
  end.

(** [tail]. *)
Definition tail (n : Z) (f : file) : list json :=
  if n <=? 0 then []
  else let entries := _iter_entries f in
       skipn (length entries - Z.to_nat n) entries.

(** One call of [append] with its arguments and clock readings. *)
Record request := {
  rq_now : clock;
  rq_layer : json;
  rq_type : json;
  rq_data : json;
  rq_proof : option string
}.

(** A sequence of calls of [append] on one ledger object, each returning
    normally: the hashes returned, the object and the file at the end. *)
Fixpoint appends (self : UniversalLedger) (rs : list request) (f : file)
  : result (list string * UniversalLedger * file) :=
  match rs with
  | [] => Ok ([], self, f)
  | r :: rest =>
      bind (append self (rq_now r) (rq_layer r) (rq_type r) (rq_data r) (rq_proof r) f)
        (fun '(h, self', lines) =>
           bind (appends self' rest (Some lines))
             (fun '(hs, self'', f') => Ok (h :: hs, self'', f')))
  end.

End ledger.

(* ===================================================================== *)
(** ** [sovereign_recursion/recursion_engine.py] *)
(* ===================================================================== *)

Module recursion_engine.

Record LayerResult := {
  status : string;
  issues : list string;
  details : list (string * json)
}.

Definition LayerResult_to_dict (self : LayerResult) : list (string * json) :=
  fold_left (fun d kv => set_key (fst kv) (snd kv) d) (details self)
    [("status", JStr (status self)); ("issues", JArr (List.map JStr (issues self)))].

(** [check_cognitive]. *)
Definition check_cognitive (rating : option Z) : LayerResult :=
  match rating with
  | None =>
      {| status := "UNKNOWN"; issues := ["no rating provided"];
         details := [("rating", JNull)] |}
  | Some rating =>
      let details := [("rating", JInt rating)] in
      if rating <=? 2 then
        {| status := "OVERLOADED"; issues := ["self-rating low"]; details := details |}
      else if rating =? 3 then
        {| status := "STRAINED"; issues := []; details := details |}
      else if rating >=? 4 then
        {| status := "STABLE"; issues := []; details := details |}
      else
        {| status := "UNKNOWN"; issues := ["rating out of range"]; details := details |}
  end.

(** [check_meta]; the reasons of the report become the issues. *)
Definition check_meta (f : ledger.file) : result LayerResult :=
  bind (ledger.verify f) (fun report =>
    let ok := ledger.report_ok report in
    Ok {| status := if ok then "INTACT" else "CORRUPTED";
          issues := if ok then [] else ledger.report_reasons report;
          details :=
            [("ledger",
              JObj [("ok", JBool ok);
                    ("total_entries", JInt (ledger.total_entries report));
                    ("reasons", JArr (List.map JStr (ledger.report_reasons report)))])] |}).

Record score := {
  total_capability : Z;
  dangerous_freedom : Z;
  stability : Z
}.

(** The body of the loop of [compute_sovereign_score]. *)
Definition add_layer (dangerous_freedom : Z) (item : string * LayerResult) : Z :=
  let res := snd item in
  if String.eqb (status res) "DEGRADED" then dangerous_freedom + 10
  else if String.eqb (status res) "WARNING" then dangerous_freedom + 5
  else if String.eqb (status res) "OVERLOADED" then dangerous_freedom + 15
  else dangerous_freedom.

(** [compute_sovereign_score], on the items of [latest_by_layer] in
    iteration order. *)
Definition compute_sovereign_score (latest_by_layer : list (string * LayerResult)) : score :=
  let total_capability := 100 in
  let dangerous_freedom := fold_left add_layer latest_by_layer 0 in
  let stability := total_capability - dangerous_freedom in
  {| total_capability := total_capability;
     dangerous_freedom := dangerous_freedom;
     stability := stability |}.

End recursion_engine.

(* ===================================================================== *)
(** ** [sovereign_recursion/loop_runner.py] *)
(* ===================================================================== *)

Module loop_runner.

Record ClassificationPolicy := {
  hard_layers_on_degraded : gset string;
  hard_statuses : gset string;
  soft_statuses : gset string;
  treat_missing_report_as : string;
  treat_missing_layers_as : string
}.

Definition defaults : ClassificationPolicy :=
  {| hard_layers_on_degraded := {[ "meta"; "codex"; "digital" ]};
     hard_statuses := {[ "CORRUPTED"; "OVERLOADED" ]};
     soft_statuses := {[ "DEGRADED" ]};
     treat_missing_report_as := "HARD_FAIL";
     treat_missing_layers_as := "HARD_FAIL" |}.

(** [set(norm(str(x).strip()) for x in xs if isinstance(x, str) and
    x.strip())], the comprehension of [from_json]. *)
Definition string_set (norm : string -> string) (xs : list json) : gset string :=
  list_to_set
    (omap (fun x =>
             match x with
             | JStr s => if String.eqb (strip s) "" then None else Some (norm (strip s))
             | _ => None
             end) xs).

(** [s or d], for sets. *)
Definition or_default (s d : gset string) : gset string :=
  if decide (s = ∅) then d else s.

Definition classifications : list string := ["PASS"; "SOFT_FAIL"; "HARD_FAIL"].

Definition is_classification (s : string) : bool :=
  existsb (String.eqb s) classifications.

(** [ClassificationPolicy.from_json]. *)
Definition from_json (obj : list (string * json)) : result ClassificationPolicy :=
  let d := defaults in
  let as_list (s : gset string) := JArr (List.map JStr (elements s)) in
  let hard_layers :=
    default (as_list (hard_layers_on_degraded d)) (lookup_key "hard_layers_on_degraded" obj) in
  let hard_statuses' :=
    default (as_list (hard_statuses d)) (lookup_key "hard_statuses" obj) in
  let soft_statuses' :=
    default (as_list (soft_statuses d)) (lookup_key "soft_statuses" obj) in
  bind (py_iter hard_layers) (fun hard_layers =>
  let hard_layers_set := string_set lower hard_layers in
  bind (py_iter hard_statuses') (fun hard_statuses' =>
  let hard_statuses_set := string_set upper hard_statuses' in
  bind (py_iter soft_statuses') (fun soft_statuses' =>
  let soft_statuses_set := string_set upper soft_statuses' in
  let missing_report :=
    upper (strip (py_str (default (JStr (treat_missing_report_as d))
                            (lookup_key "treat_missing_report_as" obj)))) in
  let missing_layers :=
    upper (strip (py_str (default (JStr (treat_missing_layers_as d))
                            (lookup_key "treat_missing_layers_as" obj)))) in
  let missing_report :=
    if is_classification missing_report then missing_report
    else treat_missing_report_as d in
  let missing_layers :=
    if is_classification missing_layers then missing_layers
    else treat_missing_layers_as d in
  Ok {| hard_layers_on_degraded := or_default hard_layers_set (hard_layers_on_degraded d);
        hard_statuses := or_default hard_statuses_set (hard_statuses d);
        soft_statuses := or_default soft_statuses_set (soft_statuses d);
        treat_missing_report_as := missing_report;
        treat_missing_layers_as := missing_layers |}))).

(** What [ClassificationPolicy.load] finds at [path]. *)
Inductive policy_source :=
| NoPath
| MissingFile
| Unreadable
| Parsed (obj : json).

(** [ClassificationPolicy.load]: every exception gives the defaults. *)
Definition load (src : policy_source) : ClassificationPolicy :=
  match src with
  | Parsed (JObj obj) =>
      match from_json obj with
      | Ok p => p
      | Raise _ => defaults
      end
  | _ => defaults
  end.

Record IterationOutcome := {
  iteration : Z;
  attempt : Z;
  rc : Z;
  out_dir : string;
  stability : option Z;
  failing_layers : list string;
  classification : string;
  action : string;
  ts_utc : string
}.

Definition json_of_option_int (o : option Z) : json :=
  match o with Some z => JInt z | None => JNull end.

Definition IterationOutcome_to_dict (self : IterationOutcome) : list (string * json) :=
  [ ("ts_utc", JStr (ts_utc self));
    ("iteration", JInt (iteration self));
    ("attempt", JInt (attempt self));
    ("rc", JInt (rc self));
    ("out_dir", JStr (out_dir self));
    ("stability", json_of_option_int (stability self));
    ("failing_layers", JArr (List.map JStr (failing_layers self)));
    ("classification", JStr (classification self));
    ("action", JStr (action self)) ].

Definition gate_fail_statuses : list string := ["DEGRADED"; "OVERLOADED"; "CORRUPTED"].

(** [_failing_layers_from_report]; [report.get] raises on a report that
    is not a dict. *)
Definition _failing_layers_from_report (report : json) : result (list string) :=
  match report with
  | JObj r =>
      match lookup_key "layers" r with
      | Some (JObj layers) =>
          Ok (omap (fun kv =>
                      match snd kv with
                      | JObj data =>
                          let status :=
                            upper (py_str (default (JStr "") (lookup_key "status" data))) in
                          if existsb (String.eqb status) gate_fail_statuses
                          then Some (fst kv) else None
                      | _ => None
                      end) layers)
      | _ => Ok []
      end
  | _ => Raise AttributeError
  end.

Definition action_of (cls : string) : string :=
  if String.eqb cls "HARD_FAIL" then "emit_alert"
  else if String.eqb cls "SOFT_FAIL" then "retry"
  else "log_only".

(** The body of the loop of [_classify], on the pair
    [(hard_reasons, soft_reasons)]. *)
Definition classify_layer (policy : ClassificationPolicy)
    (acc : list string * list string) (kv : string * json)
  : list string * list string :=
  match snd kv with
  | JObj layer_data =>
      let layer_name := fst kv in
      let status := upper (py_str (default (JStr "UNKNOWN") (lookup_key "status" layer_data))) in
      let layer_key := lower layer_name in
      if decide (status ∈ hard_statuses policy) then
        (push (fst acc) (layer_name ++ ":" ++ status), snd acc)
      else if String.eqb status "DEGRADED" then
        if decide (layer_key ∈ hard_layers_on_degraded policy) then
          (push (fst acc) (layer_name ++ ":DEGRADED"), snd acc)
        else
          (fst acc, push (snd acc) (layer_name ++ ":DEGRADED"))
      else if decide (status ∈ soft_statuses policy) then
        (fst acc, push (snd acc) (layer_name ++ ":" ++ status))
      else acc
  | _ => acc
  end.

Definition nonempty {A} (l : list A) : bool :=
  match l with [] => false | _ => true end.

(** [_classify]: the classification, the action and the reasons. *)
Definition _classify (report : option json) (rc : Z) (policy : ClassificationPolicy)
  : result (string * string * list string) :=
  if rc =? 0 then Ok ("PASS", "log_only", [])
  else
    match report with
    | None =>
        let cls := treat_missing_report_as policy in
        Ok (cls, action_of cls, ["missing_or_unparseable_run_report"])
    | Some report =>
        bind (_failing_layers_from_report report) (fun failing_layers =>
          match report with
          | JObj r =>
              match lookup_key "layers" r with
              | Some (JObj layers) =>
                  let '(hard_reasons, soft_reasons) :=
                    fold_left (classify_layer policy) layers ([], []) in
                  if nonempty hard_reasons then
                    Ok ("HARD_FAIL", "emit_alert", hard_reasons)
                  else if nonempty failing_layers || nonempty soft_reasons then
                    Ok ("SOFT_FAIL", "retry",
                        if nonempty soft_reasons then soft_reasons else failing_layers)
                  else
                    Ok ("SOFT_FAIL", "retry", ["nonzero_rc_without_failing_layers"])
              | _ =>
                  let cls := treat_missing_layers_as policy in
                  Ok (cls, action_of cls, ["missing_layers_in_report"])
              end
          | _ =>
              let cls := treat_missing_layers_as policy in
              Ok (cls, action_of cls, ["missing_layers_in_report"])
          end)
    end.

(** The parsed command line of [main]; [out_root] is the folder
    already chosen when the option is empty. *)
Record args := {
  iterations : Z;
  interval_seconds : Z;
  max_retries : Z;
  emit_alerts : bool;
  policy_path : string;
  repo_root : string;
  ledger_path : string;
  nas_host : string;
  rating : option Z;
  offline : bool;
  gated : bool;
  out_root : string;
  dashboard : bool
}.

(** What surrounds one run of [main]: the outcome of [run_engine_once]
    at each iteration and attempt (return code, parsed report, lines of
    the stripped stderr), what is found at the policy path, the clock,
    and [int(v)] ([None] where it raises). *)
Record env := {
  run_engine_once : Z -> Z -> Z * option json * list string;
  policy_file : policy_source;
  utc_iso : Z -> Z -> string;
  py_int : json -> option Z
}.

(** What [main] does to the outside, in order: the runs of the engine,
    the lines appended to the summary log, the calls of [ledger.append]
    (layer, event type, payload), the alert files written, the sleeps and
    the dashboard run. The writes are taken to succeed. *)
Inductive effect :=
| EngineRun (out_dir : string)
| SummaryAppend (row : list (string * json))
| LedgerAppend (layer event_type : string) (data : list (string * json))
| AlertWrite (alert_path : string) (payload : list (string * json))
| Sleep (seconds : Z)
| Dashboard.

Definition iter_dir (a : args) (i attempt : Z) : string :=
  out_root a ++ "/iter_" ++ zero_pad 4 i ++ "/attempt_" ++ zero_pad 2 attempt.

(** The stability read from the report, when its score is a dict. *)
Definition stability_of (e : env) (report : list (string * json)) : option Z :=
  match lookup_key "score" report with
  | Some (JObj score) => py_int e (default JNull (lookup_key "stability" score))
  | _ => None
  end.

(** [xs[-n:]] for a positive [n]. *)
Definition last_n {A} (n : nat) (xs : list A) : list A :=
  skipn (length xs - n) xs.

(** The alert file and its ledger event, when alerts are emitted. *)
Definition alert (a : args) (e : env) (kind : string) (i attempt rc : Z)
    (reasons failing_layers : list string) (report_present : bool) : list effect :=
  if emit_alerts a then
    let alert_path := iter_dir a i attempt ++ "/alert.json" in
    [ AlertWrite alert_path
        [ ("ts_utc", JStr (utc_iso e i attempt));
          ("kind", JStr kind);
          ("iteration", JInt i);
          ("attempt", JInt attempt);
          ("rc", JInt rc);
          ("reasons", JArr (List.map JStr reasons));
          ("failing_layers", JArr (List.map JStr failing_layers));
          ("report_present", JBool report_present) ];
      LedgerAppend "meta" "loop_alert"
        [ ("kind", JStr kind);
          ("iteration", JInt i);
          ("attempt", JInt attempt);
          ("alert_path", JStr alert_path);
          ("reasons", JArr (List.map JStr reasons));
          ("failing_layers", JArr (List.map JStr failing_layers)) ] ]
  else [].

(** One turn of the [while True] loop of [main], from the run of the
    engine to the "loop_iteration" ledger event: the effects, then the
    outcome appended to [outcomes] with the reasons of its classification
    and whether a report was present, or the exception raised by the
    inspection of the report. *)
Definition run_attempt (a : args) (e : env) (policy : ClassificationPolicy) (i attempt : Z)
  : list effect * result (IterationOutcome * list string * bool) :=
  let dir := iter_dir a i attempt in
  let '(rc, report, stderr) := run_engine_once e i attempt in
  let ran := [EngineRun dir] in
  let inspected :=
    match report with
    | None => Ok ([], None)
    | Some report =>
        bind (_failing_layers_from_report report) (fun failing_layers =>
          Ok (failing_layers,
              match report with
              | JObj r => stability_of e r
              | _ => None
              end))
    end in
  match bind inspected (fun fs =>
          bind (_classify report rc policy) (fun car => Ok (fs, car))) with
  | Raise ex => (ran, Raise ex)
  | Ok (failing_layers, stability, (classification, action, reasons)) =>
      let outcome :=
        {| iteration := i; attempt := attempt; rc := rc; out_dir := dir;
           stability := stability; failing_layers := failing_layers;
           classification := classification; action := action;
           ts_utc := utc_iso e i attempt |} in
      ((ran ++
        [ SummaryAppend (IterationOutcome_to_dict outcome);
          LedgerAppend "meta" "loop_iteration"
            [ ("iteration", JInt i);
              ("attempt", JInt attempt);
              ("rc", JInt rc);
              ("out_dir", JStr dir);
              ("stability", json_of_option_int stability);
              ("failing_layers", JArr (List.map JStr failing_layers));
              ("classification", JStr classification);
              ("action", JStr action);
              ("reasons", JArr (List.map JStr reasons));
              ("stderr_tail", JArr (List.map JStr (last_n 5 stderr))) ] ])%list,
       Ok (outcome, reasons, match report with Some _ => true | None => false end))
  end.

(** [time.sleep(min(5, max(1, args.interval_seconds or 1)))]. *)
Definition retry_pause (a : args) : effect :=
  Sleep (Z.min 5 (Z.max 1 (if interval_seconds a =? 0 then 1 else interval_seconds a))).

(** The [while True] loop of one iteration, [attempt] being the number
    of attempts made so far. [fuel] bounds the number of turns; [None]
    means it ran out. The result holds the effects in order and the
    outcomes appended to [outcomes], or the exception that left the
    loop. *)
Fixpoint attempt_loop (fuel : nat) (a : args) (e : env) (policy : ClassificationPolicy)
    (i attempt : Z) : option (list effect * result (list IterationOutcome)) :=
  match fuel with
  | O => None
  | S fuel =>
      let attempt := attempt + 1 in
      match run_attempt a e policy i attempt with
      | (ran, Raise ex) => Some (ran, Raise ex)
      | (recorded, Ok (outcome, reasons, report_present)) =>
          if rc outcome =? 0 then Some (recorded, Ok [outcome])
          else if String.eqb (classification outcome) "HARD_FAIL" then
            Some ((recorded ++
                   alert a e "HARD_FAIL" i attempt (rc outcome) reasons
                     (failing_layers outcome) report_present)%list,
                  Ok [outcome])
          else if attempt >? max_retries a then
            Some ((recorded ++
                   alert a e "SOFT_FAIL_EXHAUSTED" i attempt (rc outcome) reasons
                     (failing_layers outcome) report_present)%list,
                  Ok [outcome])
          else
            match attempt_loop fuel a e policy i attempt with
            | None => None
            | Some (later, r) =>
                Some ((recorded ++ retry_pause a :: later)%list,
                      match r with
                      | Ok outcomes => Ok (outcome :: outcomes)
                      | Raise ex => Raise ex
                      end)
            end
      end
  end.

(** The [for i in range(1, iterations + 1)] loop, [n] iterations being
    left and [i] the next one. *)
Fixpoint iteration_loop (fuel : nat) (a : args) (e : env) (policy : ClassificationPolicy)
    (n : nat) (i : Z) : option (list effect * result (list IterationOutcome)) :=
  match n with
  | O => Some ([], Ok [])
  | S n =>
      match attempt_loop fuel a e policy i 0 with
      | None => None
      | Some (tr, Raise ex) => Some (tr, Raise ex)
      | Some (tr, Ok outcomes) =>
          let pause :=
            if (i <? iterations a) && (interval_seconds a >? 0)
            then [Sleep (interval_seconds a)] else [] in
          match iteration_loop fuel a e policy n (i + 1) with
          | None => None
          | Some (later, r) =>
              Some ((tr ++ pause ++ later)%list,
                    match r with
                    | Ok more => Ok (outcomes ++ more)%list
                    | Raise ex => Raise ex
                    end)
          end
      end
  end.

Definition strip_or_none (s : string) : json :=
  if String.eqb (strip s) "" then JNull else JStr (strip s).

Definition sorted_strings (s : gset string) : list string := sorted (elements s).

(** [ClassificationPolicy.load(policy_path)] in [main], the path being
    [None] when the option is blank. *)
Definition loaded_policy (a : args) (e : env) : ClassificationPolicy :=
  load (match strip (policy_path a) with
        | EmptyString => NoPath
        | _ => policy_file e
        end).

(** The exit test of [main] on [outcomes]. *)
Definition any_nonzero (outcomes : list IterationOutcome) : bool :=
  existsb (fun o => negb (rc o =? 0) && (attempt o >=? 1)) outcomes.

(** [main]: the effects in order, and the exit status or the exception
    that ended the run. *)
Definition main (fuel : nat) (a : args) (e : env) : option (list effect * result Z) :=
  if iterations a <=? 0 then Some ([], Raise (SystemExit "--iterations must be >= 1"))
  else if interval_seconds a <? 0 then
    Some ([], Raise (SystemExit "--interval-seconds must be >= 0"))
  else if max_retries a <? 0 then
    Some ([], Raise (SystemExit "--max-retries must be >= 0"))
  else
    let policy := loaded_policy a e in
    let started :=
      [ LedgerAppend "meta" "loop_start"
          [ ("ts_utc", JStr (utc_iso e 0 0));
            ("out_root", JStr (out_root a));
            ("iterations", JInt (iterations a));
            ("interval_seconds", JInt (interval_seconds a));
            ("max_retries", JInt (max_retries a));
            ("offline", JBool (offline a));
            ("gated", JBool (gated a));
            ("emit_alerts", JBool (emit_alerts a));
            ("policy_path", JStr (strip (policy_path a)));
            ("policy",
             JObj [ ("hard_layers_on_degraded",
                     JArr (List.map JStr (sorted_strings (hard_layers_on_degraded policy))));
                    ("hard_statuses",
                     JArr (List.map JStr (sorted_strings (hard_statuses policy))));
                    ("soft_statuses",
                     JArr (List.map JStr (sorted_strings (soft_statuses policy))));
                    ("treat_missing_report_as", JStr (treat_missing_report_as policy));
                    ("treat_missing_layers_as", JStr (treat_missing_layers_as policy)) ]);
            ("repo_root", JStr (repo_root a));
            ("nas_host", strip_or_none (nas_host a)) ] ] in
    match iteration_loop fuel a e policy (Z.to_nat (iterations a)) 1 with
    | None => None
    | Some (tr, Raise ex) => Some ((started ++ tr)%list, Raise ex)
    | Some (tr, Ok outcomes) =>
        Some ((started ++ tr ++
               [ LedgerAppend "meta" "loop_end"
                   [ ("ts_utc", JStr (utc_iso e (iterations a + 1) 0));
                     ("out_root", JStr (out_root a)) ] ] ++
               (if dashboard a then [Dashboard] else []))%list,
              Ok (if gated a && any_nonzero outcomes then 1 else 0))
    end.

End loop_runner.

(* ===================================================================== *)
(** * Properties *)
(* ===================================================================== *)

Local Open Scope list_scope.

(** ** The score *)

Section score_facts.
Import recursion_engine.

(** The number of layers of [latest_by_layer] whose status is [s]. *)
Definition layers_with (s : string) (latest_by_layer : list (string * LayerResult)) : Z :=
  Z.of_nat (length (List.filter (fun item => String.eqb (status (snd item)) s) latest_by_layer)).

Lemma layers_with_cons s item l :
  layers_with s (item :: l) =
  (if String.eqb (status (snd item)) s then 1 else 0) + layers_with s l.
Proof.
  unfold layers_with. cbn [List.filter].
  destruct (String.eqb (status (snd item)) s); cbn [length]; lia.
Qed.

Lemma add_layer_weight acc item :
  add_layer acc item =
  acc + 10 * (if String.eqb (status (snd item)) "DEGRADED" then 1 else 0)
      + 5 * (if String.eqb (status (snd item)) "WARNING" then 1 else 0)
      + 15 * (if String.eqb (status (snd item)) "OVERLOADED" then 1 else 0).
Proof.
  unfold add_layer.
  destruct (String.eqb_spec (status (snd item)) "DEGRADED") as [-> | _]; [cbn; lia |].
  destruct (String.eqb_spec (status (snd item)) "WARNING") as [-> | _]; [cbn; lia |].
  destruct (String.eqb (status (snd item)) "OVERLOADED"); lia.
Qed.

Lemma fold_add_layer l : forall acc,
  fold_left add_layer l acc =
  acc + 10 * layers_with "DEGRADED" l + 5 * layers_with "WARNING" l
      + 15 * layers_with "OVERLOADED" l.
Proof.
  induction l as [| item l IH]; intros acc.
  - unfold layers_with. cbn. lia.
  - cbn [fold_left]. rewrite IH, add_layer_weight, !layers_with_cons. lia.
Qed.

Lemma layers_with_perm s l l' : Permutation l l' -> layers_with s l = layers_with s l'.
Proof.
  intros HP. unfold layers_with. f_equal.
  apply Permutation_length.
  induction HP; cbn [List.filter].
  - constructor.
  - destruct (String.eqb _ _); [constructor |]; assumption.
  - repeat destruct (String.eqb _ _); try constructor; reflexivity.
  - etransitivity; eassumption.
Qed.

Lemma layers_with_all_stable s l :
  s <> "STABLE" ->
  Forall (fun item => status (snd item) = "STABLE") l -> layers_with s l = 0.
Proof.
  intros Hs HF. induction HF as [| item l Hi _ IH].
  - reflexivity.
  - rewrite layers_with_cons, IH, Hi.
    destruct (String.eqb_spec "STABLE" s); [congruence | reflexivity].
Qed.

(** C4. [compute_sovereign_score] returns total_capability 100,
    dangerous_freedom = 10 per DEGRADED + 5 per WARNING + 15 per OVERLOADED
    layer and nothing for any other status, and stability = 100 -
    dangerous_freedom with no clamping (seven OVERLOADED layers give -5);
    the result does not depend on the order of the layers; an all-STABLE
    map gives {100, 0, 100}; one DEGRADED and one WARNING layer (and no
    OVERLOADED one) give dangerous_freedom 15 and stability 85. *)
Theorem C4_compute_sovereign_score :
  (forall l,
     total_capability (compute_sovereign_score l) = 100 /\
     dangerous_freedom (compute_sovereign_score l) =
       10 * layers_with "DEGRADED" l + 5 * layers_with "WARNING" l
       + 15 * layers_with "OVERLOADED" l /\
     stability (compute_sovereign_score l) =
       100 - dangerous_freedom (compute_sovereign_score l)) /\
  (forall l l', Permutation l l' -> compute_sovereign_score l = compute_sovereign_score l') /\
  (forall l, Forall (fun item => status (snd item) = "STABLE") l ->
     compute_sovereign_score l =
       {| total_capability := 100; dangerous_freedom := 0; stability := 100 |}) /\
  (forall l, layers_with "DEGRADED" l = 1 -> layers_with "WARNING" l = 1 ->
     layers_with "OVERLOADED" l = 0 ->
     dangerous_freedom (compute_sovereign_score l) = 15 /\
     stability (compute_sovereign_score l) = 85) /\
  stability (compute_sovereign_score
               (repeat ("cognitive", {| status := "OVERLOADED"; issues := []; details := [] |})
                  7)) = -5.
Proof.
  split; [| split; [| split; [| split]]].
  - intros l. unfold compute_sovereign_score. cbn [total_capability dangerous_freedom stability].
    rewrite fold_add_layer. repeat split; lia.
  - intros l l' HP. unfold compute_sovereign_score. rewrite !fold_add_layer.
    rewrite !(layers_with_perm _ l l') by assumption. reflexivity.
  - intros l HF. unfold compute_sovereign_score. rewrite fold_add_layer.
    rewrite !layers_with_all_stable by (assumption || discriminate). reflexivity.
  - intros l HD HW HO. unfold compute_sovereign_score.
    cbn [total_capability dangerous_freedom stability].
    rewrite fold_add_layer, HD, HW, HO. split; reflexivity.
  - reflexivity.
Qed.

Definition stable_layer : LayerResult := {| status := "STABLE"; issues := []; details := [] |}.
Definition degraded_layer : LayerResult :=
  {| status := "DEGRADED"; issues := ["outbound network probe failed (tcp 53)"];
     details := [("network_outbound_ok", JBool false)] |}.
Definition warning_layer : LayerResult :=
  {| status := "WARNING"; issues := ["docker detected (policy warning)"]; details := [] |}.

Lemma C4_compute_sovereign_score_witness :
  compute_sovereign_score [("physical", degraded_layer); ("digital", warning_layer)] =
  compute_sovereign_score [("digital", warning_layer); ("physical", degraded_layer)] /\
  compute_sovereign_score [("physical", stable_layer); ("codex", stable_layer)] =
    {| total_capability := 100; dangerous_freedom := 0; stability := 100 |} /\
  dangerous_freedom
    (compute_sovereign_score
       [("physical", degraded_layer); ("cognitive", stable_layer); ("digital", warning_layer)])
    = 15 /\
  stability
    (compute_sovereign_score
       [("physical", degraded_layer); ("cognitive", stable_layer); ("digital", warning_layer)])
    = 85.
Proof.
  destruct C4_compute_sovereign_score as (_ & Hperm & Hstable & Hmixed & _).
  split; [| split].
  - apply Hperm. apply perm_swap.
  - apply Hstable. repeat constructor.
  - apply Hmixed; reflexivity.
Defined.

(** ** The self-rating check *)

(** C5. On every supplied integer [check_cognitive] answers by the three
    comparisons alone: at most 2 gives OVERLOADED, 3 gives STRAINED,
    anything else (4 and above) gives STABLE. The branch that reports
    "rating out of range" is never taken: 0 is reported OVERLOADED with the
    note "self-rating low" and 6 is reported STABLE with no note. Only the
    absent rating gives UNKNOWN. *)
Theorem C5_check_cognitive_out_of_range :
  check_cognitive (Some 0) =
    {| status := "OVERLOADED"; issues := ["self-rating low"];
       details := [("rating", JInt 0)] |} /\
  check_cognitive (Some 6) =
    {| status := "STABLE"; issues := []; details := [("rating", JInt 6)] |} /\
  (forall rating,
     status (check_cognitive (Some rating)) =
       (if rating <=? 2 then "OVERLOADED" else if rating =? 3 then "STRAINED" else "STABLE") /\
     status (check_cognitive (Some rating)) <> "UNKNOWN" /\
     ~ In "rating out of range" (issues (check_cognitive (Some rating)))) /\
  check_cognitive None =
    {| status := "UNKNOWN"; issues := ["no rating provided"];
       details := [("rating", JNull)] |}.
Proof.
  split; [reflexivity | split; [reflexivity | split; [| reflexivity]]].
  intros rating. unfold check_cognitive.
  destruct (Z.leb_spec rating 2); [cbn; intuition discriminate |].
  destruct (Z.eqb_spec rating 3); [cbn; intuition discriminate |].
  destruct (Z.geb_spec rating 4); [cbn; intuition discriminate | lia].
Qed.

End score_facts.

(** ** The classification policy *)

Section policy_facts.
Import loop_runner.

(** The invariant of a policy: both fallbacks are one of the three
    classifications and none of the three sets is empty. *)
Definition policy_ok (p : ClassificationPolicy) : Prop :=
  In (treat_missing_report_as p) classifications /\
  In (treat_missing_layers_as p) classifications /\
  hard_layers_on_degraded p <> ∅ /\
  hard_statuses p <> ∅ /\
  soft_statuses p <> ∅.

(** An entry that the comprehensions of [from_json] keep: a string that
    is not blank. *)
Definition valid_entry (x : json) : Prop :=
  exists s, x = JStr s /\ strip s <> "".

Lemma is_classification_In s : is_classification s = true <-> In s classifications.
Proof.
  unfold is_classification. rewrite existsb_exists. split.
  - intros (x & Hx & Heq). apply String.eqb_eq in Heq. congruence.
  - intros H. exists s. split; [assumption | apply String.eqb_refl].
Qed.

Lemma fallback_In s d :
  In d classifications ->
  In (if is_classification s then s else d) classifications.
Proof.
  intros Hd. destruct (is_classification s) eqn:E; [| assumption].
  now apply is_classification_In.
Qed.

Lemma or_default_nonempty s d : d <> ∅ -> or_default s d <> ∅.
Proof. intros Hd. unfold or_default. destruct (decide (s = ∅)); assumption. Qed.

Lemma defaults_ok : policy_ok defaults.
Proof.
  unfold policy_ok, defaults; cbn.
  repeat split; try (right; right; left; reflexivity); set_solver.
Qed.

Lemma string_set_no_valid norm xs :
  Forall (fun x => ~ valid_entry x) xs -> string_set norm xs = ∅.
Proof.
  intros HF. unfold string_set.
  replace (omap _ xs) with (@nil string); [reflexivity |].
  induction HF as [| x xs Hx _ IH]; [reflexivity |].
  cbn [omap list_omap]. rewrite <- IH.
  destruct x as [| | | | s | |]; try reflexivity.
  destruct (String.eqb_spec (strip s) ""); [reflexivity |].
  exfalso. apply Hx. exists s. split; [reflexivity | assumption].
Qed.

Lemma from_json_inv obj p :
  from_json obj = Ok p ->
  exists l1 l2 l3,
    py_iter (default (JArr (List.map JStr (elements (hard_layers_on_degraded defaults))))
               (lookup_key "hard_layers_on_degraded" obj)) = Ok l1 /\
    py_iter (default (JArr (List.map JStr (elements (hard_statuses defaults))))
               (lookup_key "hard_statuses" obj)) = Ok l2 /\
    py_iter (default (JArr (List.map JStr (elements (soft_statuses defaults))))
               (lookup_key "soft_statuses" obj)) = Ok l3 /\
    hard_layers_on_degraded p =
      or_default (string_set lower l1) (hard_layers_on_degraded defaults) /\
    hard_statuses p = or_default (string_set upper l2) (hard_statuses defaults) /\
    soft_statuses p = or_default (string_set upper l3) (soft_statuses defaults) /\
    In (treat_missing_report_as p) classifications /\
    In (treat_missing_layers_as p) classifications.
Proof.
  unfold from_json. intros H.
  destruct (py_iter (default _ (lookup_key "hard_layers_on_degraded" obj)))
    as [l1 |]; [| discriminate]. cbn [bind] in H.
  destruct (py_iter (default _ (lookup_key "hard_statuses" obj)))
    as [l2 |]; [| discriminate]. cbn [bind] in H.
  destruct (py_iter (default _ (lookup_key "soft_statuses" obj)))
    as [l3 |]; [| discriminate]. cbn [bind] in H.
  injection H as <-. exists l1, l2, l3.
  destruct defaults_ok as (Hr & Hl & _).
  cbn [treat_missing_report_as treat_missing_layers_as
    hard_layers_on_degraded hard_statuses soft_statuses].
  repeat split; apply fallback_In; assumption.
Qed.

Lemma from_json_ok obj p : from_json obj = Ok p -> policy_ok p.
Proof.
  intros H. apply from_json_inv in H as (l1 & l2 & l3 & _ & _ & _ & E1 & E2 & E3 & Hr & Hl).
  destruct defaults_ok as (_ & _ & H1 & H2 & H3).
  unfold policy_ok. rewrite E1, E2, E3.
  repeat split; try assumption; apply or_default_nonempty; assumption.
Qed.

(** [from_json] returns exactly when each of the three list keys is
    absent or bound to something iterable. *)
Definition iterable (o : option json) : Prop :=
  match o with
  | None | Some (JArr _) | Some (JStr _) | Some (JObj _) => True
  | _ => False
  end.

Lemma py_iter_default_ok d o :
  is_ok (py_iter (default (JArr d) o)) = true <-> iterable o.
Proof. destruct o as [[| | | | | |] |]; cbn; intuition discriminate. Qed.

Lemma from_json_returns obj :
  is_ok (from_json obj) = true <->
  iterable (lookup_key "hard_layers_on_degraded" obj) /\
  iterable (lookup_key "hard_statuses" obj) /\
  iterable (lookup_key "soft_statuses" obj).
Proof.
  rewrite <- (py_iter_default_ok (List.map JStr (elements (hard_layers_on_degraded defaults)))).
  rewrite <- (py_iter_default_ok (List.map JStr (elements (hard_statuses defaults)))).
  rewrite <- (py_iter_default_ok (List.map JStr (elements (soft_statuses defaults)))).
  unfold from_json.
  destruct (py_iter _) as [l1 |]; cbn [bind is_ok]; [| intuition discriminate].
  destruct (py_iter _) as [l2 |]; cbn [bind is_ok]; [| intuition discriminate].
  destruct (py_iter _) as [l3 |]; cbn [bind is_ok]; intuition discriminate.
Qed.

(** C10. Every policy returned by [from_json] has both fallbacks among
    PASS, SOFT_FAIL, HARD_FAIL and three non-empty sets, and so has every
    policy returned by [load], which always returns; [from_json] returns
    whenever the three list keys are absent or hold a list (or another
    iterable); a list without a non-blank string entry (the empty list in
    particular) under one of the three keys leaves that key at its
    built-in default. *)
Theorem C10_policy_invariant :
  (forall obj p, from_json obj = Ok p -> policy_ok p) /\
  (forall src, policy_ok (load src)) /\
  (forall obj,
     iterable (lookup_key "hard_layers_on_degraded" obj) ->
     iterable (lookup_key "hard_statuses" obj) ->
     iterable (lookup_key "soft_statuses" obj) ->
     exists p, from_json obj = Ok p) /\
  (forall obj p xs,
     from_json obj = Ok p -> Forall (fun x => ~ valid_entry x) xs ->
     (lookup_key "hard_layers_on_degraded" obj = Some (JArr xs) ->
      hard_layers_on_degraded p = hard_layers_on_degraded defaults) /\
     (lookup_key "hard_statuses" obj = Some (JArr xs) ->
      hard_statuses p = hard_statuses defaults) /\
     (lookup_key "soft_statuses" obj = Some (JArr xs) ->
      soft_statuses p = soft_statuses defaults)).
Proof.
  split; [exact from_json_ok | split; [| split]].
  - intros [| | | [| | | | | | obj]]; try exact defaults_ok.
    cbn [load]. destruct (from_json obj) eqn:E; [| exact defaults_ok].
    eapply from_json_ok; eassumption.
  - intros obj H1 H2 H3.
    destruct (from_json obj) as [p |] eqn:E; [exists p; reflexivity |].
    assert (is_ok (from_json obj) = true) as Hok by (apply from_json_returns; auto).
    rewrite E in Hok. discriminate.
  - intros obj p xs H HF.
    apply from_json_inv in H as (l1 & l2 & l3 & I1 & I2 & I3 & E1 & E2 & E3 & _).
    rewrite E1, E2, E3.
    repeat split; intros Hk; rewrite Hk in *; cbn [default py_iter] in *.
    + injection I1 as <-. now rewrite string_set_no_valid.
    + injection I2 as <-. now rewrite string_set_no_valid.
    + injection I3 as <-. now rewrite string_set_no_valid.
Qed.

Lemma C10_policy_invariant_witness :
  policy_ok (load (Parsed (JObj [("hard_statuses", JArr []);
                                 ("soft_statuses", JArr [JStr "  "; JInt 3]);
                                 ("treat_missing_report_as", JStr "later")]))) /\
  (exists p,
     from_json [("hard_statuses", JArr []); ("soft_statuses", JArr [JStr "  "; JInt 3])] = Ok p /\
     policy_ok p /\
     hard_statuses p = hard_statuses defaults).
Proof.
  destruct C10_policy_invariant as (Hinv & Hload & Hret & Hrevert).
  split; [apply Hload |].
  destruct (Hret [("hard_statuses", JArr []); ("soft_statuses", JArr [JStr "  "; JInt 3])])
    as [p Hp]; [exact I | exact I | exact I |].
  exists p. split; [exact Hp | split; [exact (Hinv _ _ Hp) |]].
  apply (Hrevert _ p [] Hp); [constructor | reflexivity].
Defined.

(** C2, as stated, fails: with return code 0 a missing report is
    classified PASS under the default policy, whose fallback is
    HARD_FAIL. *)
Lemma C2_missing_report_counterexample :
  exists cls action reasons,
    _classify None 0 defaults = Ok (cls, action, reasons) /\
    cls = "PASS" /\
    cls <> treat_missing_report_as defaults.
Proof. exists "PASS", "log_only", []. repeat split. discriminate. Qed.

(** C2, amended. With a nonzero return code a missing report is
    classified as the policy's fallback for it, with the action of that
    classification and the single reason
    "missing_or_unparseable_run_report"; the result is PASS exactly when
    the policy's fallback is PASS, so under the default policy it is
    HARD_FAIL. With return code 0 the classification is PASS whatever the
    report. *)
Theorem C2_missing_report_classification :
  (forall rc policy, rc <> 0 ->
     _classify None rc policy =
       Ok (treat_missing_report_as policy, action_of (treat_missing_report_as policy),
           ["missing_or_unparseable_run_report"])) /\
  (forall rc, rc <> 0 ->
     _classify None rc defaults =
       Ok ("HARD_FAIL", "emit_alert", ["missing_or_unparseable_run_report"])) /\
  (forall report policy, _classify report 0 policy = Ok ("PASS", "log_only", [])).
Proof.
  split; [| split].
  - intros rc policy Hrc. unfold _classify.
    destruct (Z.eqb_spec rc 0); [contradiction | reflexivity].
  - intros rc Hrc. unfold _classify.
    destruct (Z.eqb_spec rc 0); [contradiction | reflexivity].
  - reflexivity.
Qed.

Lemma C2_missing_report_classification_witness :
  _classify None 1 defaults =
    Ok ("HARD_FAIL", "emit_alert", ["missing_or_unparseable_run_report"]).
Proof.
  destruct C2_missing_report_classification as (_ & H & _).
  apply H. discriminate.
Defined.

End policy_facts.

(** ** The ledger *)

Section ledger_facts.
Import ledger.

(** *** What the specification calls the chains *)

(** The layer and the hash of a line that counts as an entry: a JSON
    object whose hash and layer are strings. *)
Definition entry_of (ln : line) : option (string * string) :=
  match ln with
  | Doc (JObj d) =>
      match lookup_key "hash" d, lookup_key "layer" d with
      | Some (JStr h), Some (JStr lyr) => Some (lyr, h)
      | _, _ => None
      end
  | _ => None
  end.

Definition entries (lines : list line) : list (string * string) := omap entry_of lines.

(** The hash of the most recent entry, or the empty string. *)
Definition last_hash (lines : list line) : string :=
  match rev (entries lines) with
  | (_, h) :: _ => h
  | [] => ""
  end.

(** The hash of the most recent entry of [lyr], or the empty string. *)
Definition last_hash_of_layer (lines : list line) (lyr : string) : string :=
  match List.find (fun e => String.eqb (fst e) lyr) (rev (entries lines)) with
  | Some (_, h) => h
  | None => ""
  end.

(** The digest of all the fields of a parsed entry but its hash. *)
Definition content_hash (d : list (string * json)) : string :=
  _sha256_text (_canonical_json (JObj (pop_key "hash" d))).

(** What [verify] has to report about the line numbered [idx], the lines
    [before] it being given. *)
Definition findings (idx : Z) (before : list line) (ln : line) : list string :=
  match ln with
  | Blank => []
  | Invalid => [reason_at idx "invalid json"]
  | Doc (JObj d) =>
      match entry_of ln with
      | None => [reason_at idx "missing hash/layer"]
      | Some (lyr, h) =>
          (if String.eqb (content_hash d) h then []
           else [reason_at idx "hash mismatch"]) ++
          (if differs (default (JStr "") (lookup_key "previous_hash" d)) (last_hash before)
           then [reason_at idx "global previous_hash mismatch"] else []) ++
          (if differs (default (JStr "") (lookup_key "layer_previous_hash" d))
                      (last_hash_of_layer before lyr)
           then [reason_at idx "layer_previous_hash mismatch"] else [])
      end
  | Doc _ => []
  end%list.

(** The findings of every line of [rest] in file order, each line
    numbered from 1 by its position in the file [before ++ rest]. *)
Fixpoint all_findings (before rest : list line) : list string :=
  match rest with
  | [] => []
  | ln :: rest' =>
      (findings (Z.of_nat (length before) + 1) before ln
       ++ all_findings (before ++ [ln]) rest')%list
  end.

(** A line on which the readers do not raise: anything but a parsed value
    that is not an object. *)
Definition object_line (ln : line) : Prop :=
  match ln with
  | Doc (JObj _) => True
  | Doc _ => False
  | _ => True
  end.

Definition nonblank (ln : line) : bool :=
  match ln with Blank => false | _ => true end.

(** *** Loops *)

Lemma for_each_app {S A} (body : S -> A -> result S) xs ys s :
  for_each body (xs ++ ys) s = bind (for_each body xs s) (for_each body ys).
Proof.
  revert s. induction xs as [| x xs IH]; intros s; [reflexivity |].
  cbn [for_each app]. destruct (body s x); cbn [bind]; [apply IH | reflexivity].
Qed.

Lemma enumerate_app {A} (xs ys : list A) k :
  enumerate k (xs ++ ys) = (enumerate k xs ++ enumerate (k + Z.of_nat (length xs)) ys)%list.
Proof.
  revert k. induction xs as [| x xs IH]; intros k.
  - cbn. f_equal. lia.
  - cbn [enumerate app length]. rewrite IH. do 3 f_equal. lia.
Qed.

(** *** The running pair of [append] and of [verify] *)

(** The step both loops make on [(prev_global, prev_layer)]. *)
Definition advance (st : string * gmap string string) (ln : line)
  : string * gmap string string :=
  match entry_of ln with
  | Some (lyr, h) => (h, <[lyr := h]> (snd st))
  | None => st
  end.

(** The pair agrees with the chains of the lines read so far. *)
Definition tracks (st : string * gmap string string) (lines : list line) : Prop :=
  fst st = last_hash lines /\
  forall lyr, default "" (snd st !! lyr) = last_hash_of_layer lines lyr.

Lemma entries_snoc lines ln :
  entries (lines ++ [ln]) =
  (entries lines ++ match entry_of ln with Some e => [e] | None => [] end)%list.
Proof.
  unfold entries. rewrite omap_app. cbn. destruct (entry_of ln); reflexivity.
Qed.

Lemma last_hash_snoc lines ln :
  last_hash (lines ++ [ln]) =
  match entry_of ln with Some (_, h) => h | None => last_hash lines end.
Proof.
  unfold last_hash. rewrite entries_snoc.
  destruct (entry_of ln) as [[lyr h] |]; [| now rewrite app_nil_r].
  now rewrite rev_unit.
Qed.

Lemma last_hash_of_layer_snoc lines ln l :
  last_hash_of_layer (lines ++ [ln]) l =
  match entry_of ln with
  | Some (lyr, h) => if String.eqb lyr l then h else last_hash_of_layer lines l
  | None => last_hash_of_layer lines l
  end.
Proof.
  unfold last_hash_of_layer. rewrite entries_snoc.
  destruct (entry_of ln) as [[lyr h] |]; [| now rewrite app_nil_r].
  rewrite rev_unit. cbn [List.find fst]. destruct (String.eqb lyr l); reflexivity.
Qed.

Lemma tracks_nil : tracks ("", ∅) [].
Proof. split; [reflexivity |]. intros lyr. cbn [snd]. now rewrite lookup_empty. Qed.

Lemma tracks_advance st lines ln :
  tracks st lines -> tracks (advance st ln) (lines ++ [ln]).
Proof.
  intros [Hg Hl]. unfold advance. split.
  - rewrite last_hash_snoc. destruct (entry_of ln) as [[lyr h] |]; [reflexivity | assumption].
  - intros l. rewrite last_hash_of_layer_snoc.
    destruct (entry_of ln) as [[lyr h] |]; [| apply Hl]. cbn [snd].
    destruct (String.eqb_spec lyr l) as [-> | Hne].
    + now rewrite lookup_insert_eq.
    + rewrite lookup_insert_ne by assumption. apply Hl.
Qed.

Lemma reindex_line_advance st ln :
  object_line ln -> reindex_line st ln = Ok (advance st ln).
Proof.
  destruct ln as [| | [| | | | | | d]]; cbn; try tauto; intros _.
  unfold advance, entry_of.
  destruct (lookup_key "hash" d) as [[| | | | h | |] |]; try reflexivity.
  destruct (lookup_key "layer" d) as [[| | | | lyr | |] |]; reflexivity.
Qed.

Lemma reindex_line_raises st ln :
  ~ object_line ln -> reindex_line st ln = Raise AttributeError.
Proof. destruct ln as [| | [| | | | | | d]]; cbn; tauto. Qed.

Lemma object_line_dec ln : {object_line ln} + {~ object_line ln}.
Proof. destruct ln as [| | [| | | | | | d]]; cbn; tauto. Qed.

Lemma reindex_tracks lines : forall st before,
  Forall object_line lines -> tracks st before ->
  exists st', for_each reindex_line lines st = Ok st' /\ tracks st' (before ++ lines).
Proof.
  induction lines as [| ln lines IH]; intros st before HF Ht.
  - exists st. rewrite app_nil_r. split; [reflexivity | assumption].
  - inversion HF as [| ? ? Hln HF']; subst.
    cbn [for_each]. rewrite reindex_line_advance by assumption. cbn [bind].
    destruct (IH (advance st ln) (before ++ [ln]) HF' (tracks_advance _ _ _ Ht))
      as (st' & Hrun & Ht').
    exists st'. split; [assumption |]. now rewrite <- app_assoc in Ht'.
Qed.

Lemma reindex_returns lines st :
  is_ok (for_each reindex_line lines st) = true <-> Forall object_line lines.
Proof.
  revert st. induction lines as [| ln lines IH]; intros st.
  - cbn. split; [constructor | reflexivity].
  - cbn [for_each]. destruct (object_line_dec ln) as [Hln | Hln].
    + rewrite reindex_line_advance by assumption. cbn [bind]. rewrite IH.
      split; [now constructor | now inversion 1].
    + rewrite reindex_line_raises by assumption. cbn.
      split; [discriminate | inversion 1; contradiction].
Qed.

(** *** One turn of the loop of [verify] *)

Definition pair_of (st : scan) : string * gmap string string :=
  (prev_global st, prev_layer st).

Definition no_findings (l : list string) : bool :=
  match l with [] => true | _ => false end.

Lemma verify_line_findings st idx before ln :
  object_line ln -> tracks (pair_of st) before ->
  exists st',
    verify_line st (idx, ln) = Ok st' /\
    reasons st' = reasons st ++ findings idx before ln /\
    total st' = total st + (if nonblank ln then 1 else 0) /\
    ok st' = ok st && no_findings (findings idx before ln) /\
    pair_of st' = advance (pair_of st) ln.
Proof.
  destruct st as [ok0 rs0 n0 g0 m0].
  destruct ln as [| | [| | | | | | d]]; cbn [object_line]; try tauto; intros _ [Hg Hl];
    cbn [pair_of prev_global prev_layer fst snd] in Hg, Hl.
  - eexists. split; [reflexivity |]. cbn. rewrite app_nil_r, Z.add_0_r, andb_true_r. auto.
  - eexists. split; [reflexivity |]. cbn. rewrite andb_false_r. auto.
  - unfold verify_line, findings, advance, entry_of, content_hash.
    cbn [fst snd ok reasons total prev_global prev_layer pair_of].
    destruct (lookup_key "hash" d) as [[| | | | h | |] |];
      try (eexists; split; [reflexivity |]; cbn; rewrite andb_false_r; now auto).
    destruct (lookup_key "layer" d) as [[| | | | lyr | |] |];
      try (eexists; split; [reflexivity |]; cbn; rewrite andb_false_r; now auto).
    rewrite <- Hg, <- (Hl lyr).
    destruct (String.eqb _ h);
      cbn [negb flag ok reasons total prev_global prev_layer];
      destruct (differs _ g0);
      cbn [flag ok reasons total prev_global prev_layer];
      destruct (differs _ (default "" (m0 !! lyr)));
      cbn [flag ok reasons total prev_global prev_layer push app no_findings];
      (eexists; split; [reflexivity |]);
      cbn [ok reasons total prev_global prev_layer];
      rewrite ?app_nil_r, ?andb_true_r, ?andb_false_r, <- ?app_assoc; auto.
Qed.

Lemma verify_line_raises st idx ln :
  ~ object_line ln -> verify_line st (idx, ln) = Raise AttributeError.
Proof. destruct ln as [| | [| | | | | | d]]; cbn; tauto. Qed.

(** *** The whole loop *)

Fixpoint count_nonblank (lines : list line) : Z :=
  match lines with
  | [] => 0
  | ln :: rest => (if nonblank ln then 1 else 0) + count_nonblank rest
  end.

Lemma verify_loop_findings rest : forall st before,
  Forall object_line rest -> tracks (pair_of st) before ->
  exists st',
    for_each verify_line (enumerate (Z.of_nat (length before) + 1) rest) st = Ok st' /\
    reasons st' = reasons st ++ all_findings before rest /\
    total st' = total st + count_nonblank rest /\
    ok st' = ok st && no_findings (all_findings before rest).
Proof.
  induction rest as [| ln rest IH]; intros st before HF Ht.
  - exists st. cbn. rewrite app_nil_r, Z.add_0_r, andb_true_r. auto.
  - inversion HF as [| ? ? Hln HF']; subst.
    destruct (verify_line_findings st (Z.of_nat (length before) + 1) before ln Hln Ht)
      as (st1 & Hstep & Hr1 & Ht1 & Hok1 & Hp1).
    assert (tracks (pair_of st1) (before ++ [ln])) as Ht'
      by (rewrite Hp1; now apply tracks_advance).
    destruct (IH st1 (before ++ [ln]) HF' Ht') as (st' & Hrun & Hr & Htot & Hok).
    exists st'. cbn [enumerate for_each all_findings count_nonblank].
    rewrite Hstep. cbn [bind].
    rewrite length_app, Nat2Z.inj_add in Hrun. cbn [length] in Hrun.
    replace (Z.of_nat (length before) + 1 + 1)
      with (Z.of_nat (length before) + Z.of_nat 1 + 1) by lia.
    rewrite Hrun, Hr, Hr1, Htot, Ht1, Hok, Hok1.
    repeat split; [now rewrite app_assoc | lia |].
    rewrite <- andb_assoc. f_equal.
    destruct (findings _ before ln); reflexivity.
Qed.

Lemma verify_loop_returns lines st k :
  is_ok (for_each verify_line (enumerate k lines) st) = true <-> Forall object_line lines.
Proof.
  revert st k. induction lines as [| ln lines IH]; intros st k.
  - cbn. split; [constructor | reflexivity].
  - cbn [enumerate for_each]. destruct (object_line_dec ln) as [Hln | Hln].
    + destruct (verify_line st (k, ln)) as [st1 |] eqn:E.
      * cbn [bind]. rewrite IH. split; [now constructor | now inversion 1].
      * destruct ln as [| | [| | | | | | d]]; cbn in Hln, E; try tauto; try discriminate.
        destruct (lookup_key "hash" d) as [[| | | | h | |] |]; try discriminate.
        destruct (lookup_key "layer" d) as [[| | | | lyr | |] |]; discriminate.
    + rewrite verify_line_raises by assumption. cbn.
      split; [discriminate | inversion 1; contradiction].
Qed.

(** On a file whose lines are blank, rejected with [JSONDecodeError] or
    parsed to objects, [verify] returns the findings of every line in
    order, the number of non-blank lines, and [ok] exactly when there is
    no finding. *)
Lemma verify_report lines :
  Forall object_line lines ->
  verify (Some lines) =
    Ok {| report_ok := no_findings (all_findings [] lines);
          total_entries := count_nonblank lines;
          report_reasons := all_findings [] lines |}.
Proof.
  intros HF. unfold verify.
  destruct (verify_loop_findings lines
              {| ok := true; reasons := []; total := 0; prev_global := ""; prev_layer := ∅ |}
              [] HF tracks_nil) as (st' & Hrun & Hr & Ht & Hok).
  change (Z.of_nat (length (@nil line)) + 1) with 1 in Hrun. rewrite Hrun. cbn [bind].
  rewrite Hr, Ht, Hok. reflexivity.
Qed.

Lemma verify_raises lines :
  ~ Forall object_line lines -> verify (Some lines) = Raise AttributeError.
Proof.
  intros HF. unfold verify.
  destruct (for_each verify_line _ _) as [st |] eqn:E.
  - exfalso. apply HF. eapply verify_loop_returns. rewrite E. reflexivity.
  - cbn. f_equal.
    clear HF. revert E. generalize 1.
    generalize {| ok := true; reasons := []; total := 0; prev_global := ""; prev_layer := ∅ |}.
    induction lines as [| ln lines IH]; intros st k; [discriminate |].
    cbn [enumerate for_each].
    destruct (verify_line st (k, ln)) as [st1 |] eqn:E1; cbn [bind].
    + apply IH.
    + intros [= <-].
      destruct ln as [| | [| | | | | | d]]; cbn in E1; try congruence.
      destruct (lookup_key "hash" d) as [[| | | | h | |] |]; try discriminate.
      destruct (lookup_key "layer" d) as [[| | | | lyr | |] |]; discriminate.
Qed.

(** *** What [append] writes *)

(** The entry that [append] builds on top of [lines], before it is
    hashed. *)
Definition new_entry (self : UniversalLedger) (now : clock) (lyr ty : string)
    (d : list (string * json)) (proof : option string) (lines : list line) : LedgerEntry :=
  {| ts_utc := now_iso now; ts_unix := now_unix now; layer := lyr; event_type := ty;
     data := d; engine_version := ledger_engine_version self;
     previous_hash := last_hash lines;
     layer_previous_hash := last_hash_of_layer lines lyr;
     proof := proof; hash := None |}.

(** The line that holds an entry once hashed. *)
Definition sealed_line (e : LedgerEntry) : line :=
  Doc (JObj (to_dict (with_hash e (Some (compute_hash e))))).

Lemma append_inv self now layer event_type data proof f h self' lines' :
  append self now layer event_type data proof f = Ok (h, self', lines') ->
  exists lyr ty d,
    layer = JStr lyr /\ lyr <> "" /\ event_type = JStr ty /\ ty <> "" /\ data = JObj d /\
    Forall object_line (lines_of f) /\
    h = compute_hash (new_entry self now lyr ty d proof (lines_of f)) /\
    lines' = lines_of f ++ [sealed_line (new_entry self now lyr ty d proof (lines_of f))].
Proof.
  unfold append. intros H.
  destruct layer as [| | | | [| c lyr] | |]; try discriminate.
  destruct event_type as [| | | | [| c' ty] | |]; try discriminate.
  destruct data as [| | | | | | d]; try discriminate.
  assert (Forall object_line (lines_of f)) as HF.
  { apply (reindex_returns _ ("", ∅)).
    destruct (for_each reindex_line (lines_of f) ("", ∅)); [reflexivity | discriminate]. }
  destruct (reindex_tracks (lines_of f) ("", ∅) [] HF tracks_nil) as (st & Hrun & Hg & Hl).
  rewrite Hrun in H. cbn [bind app] in H, Hg, Hl.
  rewrite Hg, (Hl (String c lyr)) in H.
  injection H as <- <- <-.
  exists (String c lyr), (String c' ty), d.
  repeat split; try assumption; discriminate.
Qed.


Lemma pop_hash_to_dict e h :
  pop_key "hash" (to_dict (with_hash e h)) = pop_key "hash" (to_dict e).
Proof. destruct e as [? ? ? ? ? ? ? ? [p |] [h0 |]], h as [h |]; reflexivity. Qed.

Lemma entry_of_sealed e : entry_of (sealed_line e) = Some (layer e, compute_hash e).
Proof.
  unfold sealed_line. generalize (compute_hash e) as h. intros h.
  destruct e as [? ? ? ? ? ? ? ? [p |] ?]; reflexivity.
Qed.

Lemma lookup_previous_hash_sealed e h :
  lookup_key "previous_hash" (to_dict (with_hash e h)) = Some (JStr (previous_hash e)) /\
  lookup_key "layer_previous_hash" (to_dict (with_hash e h))
    = Some (JStr (layer_previous_hash e)).
Proof. destruct e; split; reflexivity. Qed.

Lemma differs_same s : differs (JStr s) s = false.
Proof. cbn. now rewrite String.eqb_refl. Qed.

Lemma findings_sealed idx before e :
  previous_hash e = last_hash before ->
  layer_previous_hash e = last_hash_of_layer before (layer e) ->
  findings idx before (sealed_line e) = [].
Proof.
  intros Hg Hl. unfold findings.
  rewrite entry_of_sealed. unfold sealed_line at 1.
  unfold content_hash. rewrite pop_hash_to_dict.
  fold (compute_hash e). rewrite String.eqb_refl.
  destruct (lookup_previous_hash_sealed e (Some (compute_hash e))) as [-> ->].
  cbn [default from_option id]. rewrite Hg, Hl, !differs_same. reflexivity.
Qed.

Lemma all_findings_app xs : forall before ys,
  all_findings before (xs ++ ys) = all_findings before xs ++ all_findings (before ++ xs) ys.
Proof.
  induction xs as [| x xs IH]; intros before ys.
  - now rewrite app_nil_r.
  - cbn [app all_findings]. rewrite IH, <- !app_assoc. reflexivity.
Qed.

Lemma count_nonblank_app xs ys :
  count_nonblank (xs ++ ys) = count_nonblank xs + count_nonblank ys.
Proof. induction xs as [| x xs IH]; cbn [app count_nonblank]; lia. Qed.

(** A ledger file in which [verify] finds nothing. *)
Definition clean (lines : list line) : Prop :=
  Forall object_line lines /\ all_findings [] lines = [].

Lemma append_clean self now layer event_type data proof f h self' lines' :
  append self now layer event_type data proof f = Ok (h, self', lines') ->
  clean (lines_of f) ->
  clean lines' /\ count_nonblank lines' = count_nonblank (lines_of f) + 1.
Proof.
  intros H [HF Hc].
  apply append_inv in H as (lyr & ty & d & -> & _ & -> & _ & -> & _ & -> & ->).
  split; [split |].
  - apply Forall_app. split; [assumption | repeat constructor].
  - rewrite all_findings_app, Hc. cbn [app all_findings].
    rewrite findings_sealed; reflexivity.
  - rewrite count_nonblank_app. reflexivity.
Qed.

Lemma appends_clean rs : forall self f hs self' f',
  appends self rs f = Ok (hs, self', f') ->
  clean (lines_of f) ->
  clean (lines_of f') /\
  count_nonblank (lines_of f') = count_nonblank (lines_of f) + Z.of_nat (length rs) /\
  length hs = length rs /\
  (rs = [] -> f' = f) /\
  (rs <> [] -> f' = Some (lines_of f')).
Proof.
  induction rs as [| r rs IH]; intros self f hs self' f' H Hc.
  - injection H as <- <- <-. repeat split; try apply Hc; [cbn; lia | congruence].
  - cbn [appends] in H.
    destruct (append _ _ _ _ _ _ f) as [[[h self1] lines1] |] eqn:E; [| discriminate].
    cbn [bind] in H.
    destruct (appends self1 rs (Some lines1)) as [[[hs1 self2] f2] |] eqn:E2; [| discriminate].
    cbn [bind] in H. injection H as <- <- <-.
    destruct (append_clean _ _ _ _ _ _ _ _ _ _ E Hc) as [Hc1 Hn1].
    destruct (IH _ _ _ _ _ E2 Hc1) as (Hc2 & Hn2 & Hlen & Hnil & Hcons).
    cbn [lines_of] in Hn2. cbn [length].
    repeat split; try apply Hc2; [lia | congruence | discriminate |].
    intros _. destruct rs as [| r' rs'].
    + rewrite (Hnil eq_refl). reflexivity.
    + apply Hcons. discriminate.
Qed.

Lemma clean_nil : clean [].
Proof. split; [constructor | reflexivity]. Qed.

Lemma verify_clean lines :
  clean lines ->
  verify (Some lines) =
    Ok {| report_ok := true; total_entries := count_nonblank lines; report_reasons := [] |}.
Proof. intros [HF Hc]. rewrite verify_report by assumption. now rewrite Hc. Qed.

(** [append] takes the previous hashes from the file alone: the hashes
    cached in the ledger object play no part in what it returns and
    writes. *)
Lemma append_ignores_cache self1 self2 now layer event_type data proof f :
  ledger_engine_version self1 = ledger_engine_version self2 ->
  match append self1 now layer event_type data proof f,
        append self2 now layer event_type data proof f with
  | Ok (h1, _, lines1), Ok (h2, _, lines2) => h1 = h2 /\ lines1 = lines2
  | Raise e1, Raise e2 => e1 = e2
  | _, _ => False
  end.
Proof.
  intros Hv. unfold append.
  destruct layer as [| | | | [| c lyr] | |]; try reflexivity.
  destruct event_type as [| | | | [| c' ty] | |]; try reflexivity.
  destruct data as [| | | | | | d]; try reflexivity.
  destruct (for_each reindex_line (lines_of f) ("", ∅)) as [st |]; cbn [bind];
    [| reflexivity].
  rewrite Hv. split; reflexivity.
Qed.

(** *** Appending to a fresh ledger, then verifying *)

(** A fresh ledger file: it does not exist, or it is empty. *)
Definition fresh (f : file) : Prop := f = None \/ f = Some [].

Lemma fresh_lines f : fresh f -> lines_of f = [].
Proof. now intros [-> | ->]. Qed.

Definition demo_ledger : UniversalLedger :=
  {| ledger_engine_version := "recursion-v1"; _last_global_hash := "";
     _last_layer_hash := ∅ |}.

Definition demo_request (lyr : string) (n : Z) : request :=
  {| rq_now := Clock "2023-11-14T22:13:20.500000+00:00" "1700000000.5";
     rq_layer := JStr lyr; rq_type := JStr "check";
     rq_data := JObj [("status", JStr "STABLE"); ("n", JInt n)];
     rq_proof := None |}.

(** C1. After N calls of [append] on a fresh ledger that all return,
    [verify] returns ok = true, total_entries = N and no reason, provided
    the file exists by then: N >= 1, or the fresh file was an empty file.
    For N = 0 on a ledger file that does not exist, [verify] does not
    return a report: it raises [FileNotFoundError]. *)
Theorem C1_appends_then_verify :
  (forall self, appends self [] None = Ok ([], self, None)) /\
  verify None = Raise FileNotFoundError /\
  (forall self rs f hs self' f',
     fresh f -> appends self rs f = Ok (hs, self', f') ->
     rs <> [] \/ f = Some [] ->
     verify f' =
       Ok {| report_ok := true; total_entries := Z.of_nat (length rs);
             report_reasons := [] |}).
Proof.
  split; [reflexivity | split; [reflexivity |]].
  intros self rs f hs self' f' Hf Hrun Hex.
  assert (clean (lines_of f)) as Hc by (rewrite (fresh_lines f Hf); apply clean_nil).
  destruct (appends_clean rs _ _ _ _ _ Hrun Hc) as (Hc' & Hn & _ & Hnil & Hcons).
  rewrite (fresh_lines f Hf) in Hn. cbn [count_nonblank] in Hn.
  assert (f' = Some (lines_of f')) as ->.
  { destruct rs as [| r rs]; [| apply Hcons; discriminate].
    destruct Hex as [Hex | ->]; [contradiction |]. now rewrite (Hnil eq_refl). }
  rewrite verify_clean by assumption. now rewrite Hn.
Qed.

Lemma C1_appends_then_verify_witness :
  exists hs self' f',
    appends demo_ledger [demo_request "test" 1; demo_request "test" 2] None
      = Ok (hs, self', f') /\
    verify f' = Ok {| report_ok := true; total_entries := 2; report_reasons := [] |}.
Proof.
  destruct (appends demo_ledger [demo_request "test" 1; demo_request "test" 2] None)
    as [[[hs self'] f'] |] eqn:E; [| vm_compute in E; discriminate].
  exists hs, self', f'. split; [reflexivity |].
  destruct C1_appends_then_verify as (_ & _ & H).
  apply (H _ _ None _ _ _ (or_introl eq_refl) E). left. discriminate.
Defined.

(** *** The per-layer chain *)

Lemma to_dict_lookups e h :
  lookup_key "layer" (to_dict (with_hash e (Some h))) = Some (JStr (layer e)) /\
  lookup_key "hash" (to_dict (with_hash e (Some h))) = Some (JStr h).
Proof. destruct e as [? ? ? ? ? ? ? ? [p |] ?]; split; reflexivity. Qed.

Lemma last_hash_of_layer_two e1 e2 :
  layer e1 <> layer e2 ->
  last_hash_of_layer [sealed_line e1; sealed_line e2] (layer e1) = compute_hash e1.
Proof.
  intros Hne. unfold last_hash_of_layer, entries. cbn [omap list_omap].
  rewrite !entry_of_sealed. cbn [rev app List.find fst].
  destruct (String.eqb_spec (layer e2) (layer e1)); [congruence |].
  now rewrite String.eqb_refl.
Qed.

(** C6. The entry written by [append] carries, as layer_previous_hash,
    the hash of the most recent entry of its layer among the lines already
    in the file, or the empty string when there is none (and, as
    previous_hash, the hash of the most recent entry). Appending to A, to
    B, then to A on a fresh ledger, with A and B distinct, gives a third
    entry whose layer_previous_hash is the hash returned for the first;
    on the ledger of the example that hash differs from the hash of the B
    entry. *)
Theorem C6_layer_previous_hash :
  (forall self now layer event_type data proof f h self' lines',
     append self now layer event_type data proof f = Ok (h, self', lines') ->
     exists lyr d,
       layer = JStr lyr /\
       lines' = lines_of f ++ [Doc (JObj d)] /\
       lookup_key "layer" d = Some (JStr lyr) /\
       lookup_key "hash" d = Some (JStr h) /\
       lookup_key "layer_previous_hash" d
         = Some (JStr (last_hash_of_layer (lines_of f) lyr)) /\
       lookup_key "previous_hash" d = Some (JStr (last_hash (lines_of f)))) /\
  (forall self f r1 r2 r3 A B hs self' f',
     fresh f -> rq_layer r1 = JStr A -> rq_layer r2 = JStr B -> rq_layer r3 = JStr A ->
     A <> B ->
     appends self [r1; r2; r3] f = Ok (hs, self', f') ->
     exists h1 h2 h3 d1 d2 d3,
       hs = [h1; h2; h3] /\
       f' = Some [Doc (JObj d1); Doc (JObj d2); Doc (JObj d3)] /\
       lookup_key "hash" d1 = Some (JStr h1) /\
       lookup_key "hash" d2 = Some (JStr h2) /\
       lookup_key "layer_previous_hash" d1 = Some (JStr "") /\
       lookup_key "layer_previous_hash" d2 = Some (JStr "") /\
       lookup_key "layer_previous_hash" d3 = Some (JStr h1)) /\
  (exists h1 h2 h3 d1 d2 d3,
     appends demo_ledger
       [demo_request "physical" 1; demo_request "digital" 2; demo_request "physical" 3] None
       = Ok ([h1; h2; h3], {| ledger_engine_version := "recursion-v1";
                              _last_global_hash := h3;
                              _last_layer_hash := {[ "physical" := h3; "digital" := h2 ]} |},
             Some [Doc (JObj d1); Doc (JObj d2); Doc (JObj d3)]) /\
     lookup_key "layer_previous_hash" d3 = Some (JStr h1) /\
     h1 <> h2).
Proof.
  split; [| split].
  - intros self now layer event_type data proof f h self' lines' H.
    apply append_inv in H as (lyr & ty & d & -> & _ & -> & _ & -> & _ & -> & ->).
    eexists lyr, _. split; [reflexivity |]. split; [reflexivity |].
    destruct (to_dict_lookups (new_entry self now lyr ty d proof (lines_of f))
                (compute_hash (new_entry self now lyr ty d proof (lines_of f)))) as [-> ->].
    destruct (lookup_previous_hash_sealed (new_entry self now lyr ty d proof (lines_of f))
                (Some (compute_hash (new_entry self now lyr ty d proof (lines_of f)))))
      as [-> ->].
    repeat split.
  - intros self f r1 r2 r3 A B hs self' f' Hf HA1 HB HA3 Hne H.
    cbn [appends] in H.
    destruct (append self _ _ _ _ _ f) as [[[h1 s1] l1] |] eqn:E1; [| discriminate].
    cbn [bind] in H.
    destruct (append s1 _ _ _ _ _ (Some l1)) as [[[h2 s2] l2] |] eqn:E2; [| discriminate].
    cbn [bind] in H.
    destruct (append s2 _ _ _ _ _ (Some l2)) as [[[h3 s3] l3] |] eqn:E3; [| discriminate].
    cbn [bind] in H. injection H as <- <- <-.
    rewrite HA1 in E1. rewrite HB in E2. rewrite HA3 in E3.
    apply append_inv in E1 as (a1 & ty1 & d1 & [= <-] & _ & _ & _ & _ & _ & -> & ->).
    apply append_inv in E2 as (b2 & ty2 & d2 & [= <-] & _ & _ & _ & _ & _ & -> & ->).
    apply append_inv in E3 as (a3 & ty3 & d3 & [= <-] & _ & _ & _ & _ & _ & -> & ->).
    rewrite (fresh_lines f Hf). cbn [lines_of app].
    do 3 eexists. eexists _, _, _.
    split; [reflexivity |]. split; [reflexivity |].
    repeat match goal with
           | |- context [lookup_key "hash" (to_dict (with_hash ?e (Some ?h)))] =>
               rewrite (proj2 (to_dict_lookups e h))
           | |- context [lookup_key "layer_previous_hash" (to_dict (with_hash ?e ?h))] =>
               rewrite (proj2 (lookup_previous_hash_sealed e h))
           end.
    repeat split.
    + cbn [layer_previous_hash new_entry].
      unfold last_hash_of_layer, entries. cbn [omap list_omap].
      rewrite entry_of_sealed. cbn [rev app List.find fst layer new_entry].
      destruct (String.eqb_spec A B); [contradiction | reflexivity].
    + cbn [layer_previous_hash new_entry].
      fold (sealed_line (new_entry self (rq_now r1) A ty1 d1 (rq_proof r1) [])).
      fold (sealed_line (new_entry s1 (rq_now r2) B ty2 d2 (rq_proof r2)
              [sealed_line (new_entry self (rq_now r1) A ty1 d1 (rq_proof r1) [])])).
      now rewrite (last_hash_of_layer_two
                     (new_entry self (rq_now r1) A ty1 d1 (rq_proof r1) [])).
  - vm_compute. do 6 eexists. split; [reflexivity |]. split; [reflexivity | discriminate].
Qed.

Definition demo_lines : list line :=
  Eval vm_compute in
    match appends demo_ledger [demo_request "physical" 1; demo_request "digital" 2] None with
    | Ok (_, _, f) => lines_of f
    | Raise _ => []
    end.

Lemma C6_layer_previous_hash_witness :
  exists h self' d,
    append demo_ledger (Clock "2023-11-14T22:13:21.000000+00:00" "1700000001.0")
      (JStr "physical") (JStr "check") (JObj [("status", JStr "DEGRADED")]) None
      (Some demo_lines) = Ok (h, self', demo_lines ++ [Doc (JObj d)]) /\
    lookup_key "layer_previous_hash" d
      = Some (JStr (last_hash_of_layer demo_lines "physical")) /\
    last_hash_of_layer demo_lines "physical"
      = "cebd25ae8b641d226945e9d147581443274649c590b72ffdd8c8dd04209fc9c1".
Proof.
  destruct (append demo_ledger (Clock "2023-11-14T22:13:21.000000+00:00" "1700000001.0")
              (JStr "physical") (JStr "check") (JObj [("status", JStr "DEGRADED")]) None
              (Some demo_lines)) as [[[h self'] lines'] |] eqn:E;
    [| vm_compute in E; discriminate].
  destruct C6_layer_previous_hash as (H & _).
  destruct (H _ _ _ _ _ _ _ _ _ _ E) as (lyr & d & [= <-] & -> & _ & _ & Hlph & _).
  exists h, self', d. split; [reflexivity |]. split; [exact Hlph |].
  vm_compute. reflexivity.
Defined.

(** *** Tampering with a stored entry *)

Lemma lookup_key_set_key_ne k k' v d :
  k <> k' -> lookup_key k (set_key k' v d) = lookup_key k d.
Proof.
  intros Hne. induction d as [| [k0 w] d IH]; cbn [set_key lookup_key].
  - destruct (String.eqb_spec k' k); [congruence | reflexivity].
  - destruct (String.eqb_spec k0 k') as [-> | Hk]; cbn [lookup_key].
    + destruct (String.eqb_spec k' k); [congruence | reflexivity].
    + destruct (String.eqb k0 k); [reflexivity | apply IH].
Qed.

Lemma entry_of_set_data v d :
  entry_of (Doc (JObj (set_key "data" v d))) = entry_of (Doc (JObj d)).
Proof. unfold entry_of. now rewrite !lookup_key_set_key_ne by discriminate. Qed.

Lemma findings_ext idx b1 b2 ln :
  entries b1 = entries b2 -> findings idx b1 ln = findings idx b2 ln.
Proof.
  intros He. unfold findings, last_hash, last_hash_of_layer. now rewrite He.
Qed.

Lemma all_findings_ext rest : forall b1 b2,
  length b1 = length b2 -> entries b1 = entries b2 ->
  all_findings b1 rest = all_findings b2 rest.
Proof.
  induction rest as [| ln rest IH]; intros b1 b2 Hlen He; [reflexivity |].
  cbn [all_findings]. rewrite Hlen, (findings_ext _ b1 b2) by assumption.
  f_equal. apply IH.
  - rewrite !length_app. now rewrite Hlen.
  - rewrite !entries_snoc. now rewrite He.
Qed.

Lemma verify_returns lines :
  (exists rep, verify (Some lines) = Ok rep) <-> Forall object_line lines.
Proof.
  split.
  - intros [rep H]. destruct (List.Forall_dec object_line object_line_dec lines) as [HF | HF];
      [assumption |]. rewrite verify_raises in H by assumption. discriminate.
  - intros HF. eexists. now apply verify_report.
Qed.

Lemma verified_clean lines rep :
  verify (Some lines) = Ok rep -> report_ok rep = true ->
  clean lines /\ total_entries rep = count_nonblank lines.
Proof.
  intros H Hok.
  assert (Forall object_line lines) as HF by (apply verify_returns; eauto).
  rewrite verify_report in H by assumption. injection H as <-.
  cbn [report_ok total_entries] in *. split; [split; [assumption |] | reflexivity].
  destruct (all_findings [] lines); [reflexivity | discriminate].
Qed.

(** C7. [verify] does not turn every corruption into a finding. Take a
    file whose lines are each blank, rejected by [json.loads] with
    [JSONDecodeError], or parsed. If one of its lines parsed to a value
    that is not an object (a list, a number, a string, true, false or
    null), then [verify] raises [AttributeError] at [obj.get], wherever
    the line is and whatever the other lines hold: no report is returned
    and the line is recorded nowhere. *)
Theorem C7_verify_raises_on_non_object_line l1 v l2 :
  ~ object_line (Doc v) ->
  verify (Some (l1 ++ Doc v :: l2)) = Raise AttributeError.
Proof.
  intros Hv. apply verify_raises. intros HF.
  apply Forall_app in HF as [_ HF]. inversion HF; subst. contradiction.
Qed.

Lemma C7_verify_raises_on_non_object_line_witness :
  verify (Some demo_lines) =
    Ok {| report_ok := true; total_entries := 2; report_reasons := [] |} /\
  ~ object_line (Doc (JArr [])) /\
  verify (Some (demo_lines ++ Doc (JArr []) :: [])) = Raise AttributeError.
Proof.
  split; [vm_compute; reflexivity |].
  split; [simpl; tauto |].
  apply (C7_verify_raises_on_non_object_line demo_lines (JArr []) []).
  simpl. tauto.
Defined.

End ledger_facts.

(** ** The loop controller *)

Section loop_facts.
Import loop_runner.

Definition is_loop_iteration (ef : effect) : bool :=
  match ef with
  | LedgerAppend _ ty _ => String.eqb ty "loop_iteration"
  | _ => false
  end.

Definition is_engine_run (ef : effect) : bool :=
  match ef with
  | EngineRun _ => true
  | _ => false
  end.

(** The number of effects of a trace that satisfy [p]. *)
Definition count (p : effect -> bool) (tr : list effect) : nat :=
  length (List.filter p tr).

(** The test that ends the [while True] loop after an attempt. *)
Definition stops (a : args) (o : IterationOutcome) : bool :=
  (rc o =? 0) || String.eqb (classification o) "HARD_FAIL" || (attempt o >? max_retries a).

Lemma count_app p tr1 tr2 : count p (tr1 ++ tr2) = (count p tr1 + count p tr2)%nat.
Proof. unfold count. now rewrite List.filter_app, length_app. Qed.

Lemma count_alert p a e kind i k rc0 reasons failing present :
  (p = is_loop_iteration \/ p = is_engine_run) ->
  count p (alert a e kind i k rc0 reasons failing present) = 0%nat.
Proof. intros [-> | ->]; unfold alert; destruct (emit_alerts a); reflexivity. Qed.

Lemma run_attempt_ok a e policy i k tr o reasons present :
  run_attempt a e policy i k = (tr, Ok (o, reasons, present)) ->
  attempt o = k /\ iteration o = i /\
  rc o = fst (fst (run_engine_once e i k)) /\
  _classify (snd (fst (run_engine_once e i k))) (rc o) policy
    = Ok (classification o, action o, reasons) /\
  count is_loop_iteration tr = 1%nat /\ count is_engine_run tr = 1%nat.
Proof.
  unfold run_attempt. destruct (run_engine_once e i k) as [[rc0 report] stderr].
  cbn [fst snd].
  destruct (bind _ _) as [[[failing stab] [[cls act] rs]] |] eqn:E; [| discriminate].
  intros [= <- <- <- <-]. cbn [attempt iteration rc classification action].
  repeat split.
  destruct report as [report |]; cbn [bind] in E.
  - destruct (_failing_layers_from_report report); cbn [bind] in E; [| discriminate].
    destruct (_classify (Some report) rc0 policy) as [[[c1 a1] r1] |]; cbn [bind] in E;
      [| discriminate].
    now injection E as <- <- <- <- <-.
  - destruct (_classify None rc0 policy) as [[[c1 a1] r1] |]; cbn [bind] in E;
      [| discriminate].
    now injection E as <- <- <- <- <-.
Qed.

Lemma run_attempt_raise a e policy i k tr ex :
  run_attempt a e policy i k = (tr, Raise ex) ->
  count is_loop_iteration tr = 0%nat /\ count is_engine_run tr = 1%nat.
Proof.
  unfold run_attempt. destruct (run_engine_once e i k) as [[rc0 report] stderr].
  destruct (bind _ _) as [[[failing stab] [[cls act] rs]] |]; [discriminate |].
  intros [= <- <-]. split; reflexivity.
Qed.

Lemma classify_pass report policy cls action reasons :
  _classify report 0 policy = Ok (cls, action, reasons) -> cls = "PASS".
Proof. cbn. congruence. Qed.

(** What holds of the outcomes of one iteration, [k] attempts having been
    made before the loop is entered. *)
Definition iteration_shape (a : args) (e : env) (policy : ClassificationPolicy) (i k : Z)
    (tr : list effect) (os : list IterationOutcome) : Prop :=
  os <> [] /\
  count is_loop_iteration tr = length os /\
  count is_engine_run tr = length os /\
  forall n o, os !! n = Some o ->
    attempt o = k + Z.of_nat n + 1 /\
    iteration o = i /\
    (exists action reasons,
       _classify (snd (fst (run_engine_once e i (attempt o)))) (rc o) policy
         = Ok (classification o, action, reasons)) /\
    stops a o = bool_decide (S n = length os).

Lemma attempt_loop_shape a e policy i fuel : forall k tr os,
  attempt_loop fuel a e policy i k = Some (tr, Ok os) ->
  iteration_shape a e policy i k tr os.
Proof.
  induction fuel as [| fuel IH]; intros k tr os H; [discriminate |].
  cbn [attempt_loop] in H.
  destruct (run_attempt a e policy i (k + 1)) as [rec [[[o reasons] present] | ex]] eqn:E;
    [| discriminate].
  destruct (run_attempt_ok _ _ _ _ _ _ _ _ _ E) as (Hk & Hi & Hrc & Hcls & Hli & Hrun).
  assert (forall tr', count is_loop_iteration tr' = 0%nat -> count is_engine_run tr' = 0%nat ->
            stops a o = true ->
            iteration_shape a e policy i k (rec ++ tr') [o]) as Hone.
  { intros tr' H1 H2 Hs. unfold iteration_shape. rewrite !count_app, Hli, Hrun, H1, H2.
    split; [discriminate |]. split; [reflexivity |]. split; [reflexivity |].
    intros n o' Hn. destruct n as [| n]; [| destruct n; discriminate].
    injection Hn as <-.
    repeat split; [lia | assumption | rewrite Hk; eauto | rewrite Hs; reflexivity]. }
  unfold stops in Hone.
  destruct (rc o =? 0) eqn:E0.
  { injection H as <- <-. rewrite <- (app_nil_r rec). now apply Hone. }
  destruct (String.eqb (classification o) "HARD_FAIL") eqn:E1.
  { injection H as <- <-. apply Hone; [apply count_alert; auto.. | reflexivity]. }
  destruct (k + 1 >? max_retries a) eqn:E2.
  { injection H as <- <-. rewrite Hk in Hone.
    apply Hone; [apply count_alert; auto.. |]. rewrite E2. reflexivity. }
  destruct (attempt_loop fuel a e policy i (k + 1)) as [[later [os' | ex]] |] eqn:E3;
    try discriminate.
  injection H as <- <-.
  destruct (IH _ _ _ E3) as (Hne & Hli' & Hrun' & Hall).
  unfold iteration_shape.
  rewrite !count_app. change (retry_pause a :: later) with ([retry_pause a] ++ later).
  rewrite !count_app, Hli, Hrun, Hli', Hrun'. cbn [count List.filter is_loop_iteration
    is_engine_run retry_pause length Nat.add].
  split; [discriminate |]. split; [reflexivity |]. split; [reflexivity |].
  intros n o' Hn. destruct n as [| n].
  - injection Hn as <-. repeat split; [lia | assumption | rewrite Hk; eauto |].
    unfold stops. rewrite E0, E1, Hk, E2. cbn [orb length].
    destruct os'; [contradiction |]. cbn [length].
    symmetry. apply bool_decide_eq_false. lia.
  - destruct (Hall n o' Hn) as (Ha & Hb & Hc & Hd).
    repeat split; [lia | assumption | assumption |].
    rewrite Hd. cbn [length]. apply bool_decide_ext. lia.
Qed.

(** With enough fuel the loop of one iteration ends, having run the
    engine at most [max_retries + 1 - k] times (once at the least). *)
Lemma attempt_loop_terminates a e policy i fuel : forall k,
  (Z.to_nat (max_retries a - k) < fuel)%nat ->
  exists tr r,
    attempt_loop fuel a e policy i k = Some (tr, r) /\
    Z.of_nat (count is_engine_run tr) <= Z.max 1 (max_retries a + 1 - k).
Proof.
  induction fuel as [| fuel IH]; intros k Hfuel; [lia |].
  cbn [attempt_loop].
  destruct (run_attempt a e policy i (k + 1)) as [rec [[[o reasons] present] | ex]] eqn:E.
  2:{ do 2 eexists. split; [reflexivity |].
      destruct (run_attempt_raise _ _ _ _ _ _ _ E) as [_ ->]. lia. }
  destruct (run_attempt_ok _ _ _ _ _ _ _ _ _ E) as (_ & _ & _ & _ & _ & Hrun).
  destruct (rc o =? 0).
  { do 2 eexists. split; [reflexivity |]. rewrite Hrun. lia. }
  destruct (String.eqb (classification o) "HARD_FAIL").
  { do 2 eexists. split; [reflexivity |]. rewrite count_app, Hrun, count_alert by auto. lia. }
  destruct (Z.gtb_spec (k + 1) (max_retries a)) as [Hgt | Hle].
  { do 2 eexists. split; [reflexivity |]. rewrite count_app, Hrun, count_alert by auto. lia. }
  destruct (IH (k + 1)) as (later & r & Hrun' & Hbound); [lia |].
  rewrite Hrun'. do 2 eexists. split; [reflexivity |].
  change (retry_pause a :: later) with ([retry_pause a] ++ later).
  rewrite !count_app, Hrun. cbn [count List.filter is_engine_run retry_pause length Nat.add].
  lia.
Qed.

Lemma soft_fail_nonzero e policy i o action reasons :
  _classify (snd (fst (run_engine_once e i (attempt o)))) (rc o) policy
    = Ok (classification o, action, reasons) ->
  classification o = "SOFT_FAIL" -> rc o <> 0.
Proof.
  intros Hcls Hsoft Hrc. rewrite Hrc in Hcls.
  apply classify_pass in Hcls. congruence.
Qed.

Definition demo_report (status : string) : json :=
  JObj [ ("layers",
          JObj [ ("physical", JObj [("status", JStr status); ("issues", JArr [])]);
                 ("meta", JObj [("status", JStr "INTACT"); ("issues", JArr [])]) ]);
         ("score", JObj [ ("total_capability", JInt 100);
                          ("dangerous_freedom",
                           JInt (if String.eqb status "DEGRADED" then 10 else 0));
                          ("stability",
                           JInt (if String.eqb status "DEGRADED" then 90 else 100)) ]) ].

(** A gated run of one iteration with two retries allowed, in which the
    engine reports the physical layer DEGRADED (return code 1) on the
    attempts 1 and 2 and STABLE (return code 0) on the attempt 3. *)
Definition demo_args : args :=
  {| iterations := 1; interval_seconds := 0; max_retries := 2; emit_alerts := false;
     policy_path := ""; repo_root := "/srv/repo";
     ledger_path := "validation/sovereign_recursion/ledger.jsonl"; nas_host := "";
     rating := None; offline := true; gated := true;
     out_root := "validation/sovereign_recursion/loop_20231114T221320Z";
     dashboard := false |}.

Definition demo_env : env :=
  {| run_engine_once := fun _ attempt =>
       if attempt <=? 2
       then (1, Some (demo_report "DEGRADED"), ["GATE_FAIL layer=physical status=DEGRADED"])
       else (0, Some (demo_report "STABLE"), []);
     policy_file := NoPath;
     utc_iso := fun _ _ => "2023-11-14T22:13:20.500000+00:00";
     py_int := fun v => match v with JInt z => Some z | _ => None end |}.

(** C8. The loop of one iteration ends: with fuel above max-retries it
    returns, having run the engine at most max-retries + 1 times. When it
    returns its outcomes, there are between 1 and max-retries + 1 of them,
    numbered 1, 2, ... by attempt, one "loop_iteration" ledger event and
    one engine run for each; and after an attempt classified SOFT_FAIL a
    further attempt follows exactly when the attempts made so far are at
    most max-retries. With max-retries = 2, attempts 1 and 2 classified
    SOFT_FAIL and attempt 3 returning code 0, the iteration makes exactly
    these three attempts, the third one classified PASS, and appends
    exactly three "loop_iteration" events. *)
Theorem C8_retry_bound :
  (forall fuel a e policy i,
     0 <= max_retries a -> (Z.to_nat (max_retries a) < fuel)%nat ->
     exists tr r,
       attempt_loop fuel a e policy i 0 = Some (tr, r) /\
       Z.of_nat (count is_engine_run tr) <= max_retries a + 1) /\
  (forall fuel a e policy i tr os,
     0 <= max_retries a ->
     attempt_loop fuel a e policy i 0 = Some (tr, Ok os) ->
     (1 <= length os)%nat /\
     Z.of_nat (length os) <= max_retries a + 1 /\
     count is_engine_run tr = length os /\
     count is_loop_iteration tr = length os /\
     forall n o, os !! n = Some o ->
       attempt o = Z.of_nat n + 1 /\
       (classification o = "SOFT_FAIL" ->
        ((S n < length os)%nat <-> attempt o <= max_retries a))) /\
  (forall fuel a e policy i tr1 o1 rs1 p1 tr2 o2 rs2 p2 tr3 o3 rs3 p3,
     max_retries a = 2 -> (3 <= fuel)%nat ->
     run_attempt a e policy i 1 = (tr1, Ok (o1, rs1, p1)) -> classification o1 = "SOFT_FAIL" ->
     run_attempt a e policy i 2 = (tr2, Ok (o2, rs2, p2)) -> classification o2 = "SOFT_FAIL" ->
     run_attempt a e policy i 3 = (tr3, Ok (o3, rs3, p3)) -> rc o3 = 0 ->
     exists tr,
       attempt_loop fuel a e policy i 0 = Some (tr, Ok [o1; o2; o3]) /\
       attempt o3 = 3 /\ classification o3 = "PASS" /\
       count is_loop_iteration tr = 3%nat /\ count is_engine_run tr = 3%nat).
Proof.
  split; [| split].
  - intros fuel a e policy i Hmax Hfuel.
    destruct (attempt_loop_terminates a e policy i fuel 0) as (tr & r & Hrun & Hb);
      [now rewrite Z.sub_0_r |].
    exists tr, r. split; [assumption | lia].
  - intros fuel a e policy i tr os Hmax H.
    destruct (attempt_loop_shape _ _ _ _ _ _ _ _ H) as (Hne & Hli & Hrun & Hall).
    assert (forall n o, os !! n = Some o ->
              attempt o = Z.of_nat n + 1 /\
              ((S n < length os)%nat -> attempt o <= max_retries a) /\
              (classification o = "SOFT_FAIL" ->
               ((S n < length os)%nat <-> attempt o <= max_retries a))) as Hstep.
    { intros n o Hn. destruct (Hall n o Hn) as (Ha & _ & (action & reasons & Hcls) & Hs).
      pose proof (lookup_lt_Some _ _ _ Hn) as Hlt.
      split; [lia | split].
      - intros Hmore. unfold stops in Hs.
        rewrite bool_decide_eq_false_2 in Hs by lia.
        apply orb_false_iff in Hs as [_ Hs]. lia.
      - intros Hsoft. pose proof (soft_fail_nonzero _ _ _ _ _ _ Hcls Hsoft) as Hrc.
        unfold stops in Hs. rewrite Hsoft in Hs.
        destruct (Z.eqb_spec (rc o) 0); [contradiction |]. cbn [orb String.eqb] in Hs.
        cbn in Hs. split.
        + intros Hmore. rewrite bool_decide_eq_false_2 in Hs by lia. lia.
        + intros Hle. destruct (decide (S n = length os)) as [Heq | Hneq]; [| lia].
          rewrite bool_decide_eq_true_2 in Hs by assumption. lia. }
    destruct os as [| o os']; [contradiction |]. cbn [length] in *.
    split; [lia |]. split; [| split; [assumption | split; [assumption |]]].
    + destruct os' as [| o' os'']; [cbn; lia |].
      destruct (lookup_lt_is_Some_2 (o :: o' :: os'') (length os'')) as [x Hx]; [cbn; lia |].
      destruct (Hstep _ _ Hx) as (Ha & Hb & _). cbn [length] in *. lia.
    + intros n o0 H0. destruct (Hstep n o0 H0) as (Ha & _ & Hc). split; assumption.
  - intros fuel a e policy i tr1 o1 rs1 p1 tr2 o2 rs2 p2 tr3 o3 rs3 p3
      Hmax Hfuel E1 S1 E2 S2 E3 R3.
    destruct fuel as [| [| [| fuel]]]; try lia.
    destruct (run_attempt_ok _ _ _ _ _ _ _ _ _ E1) as (A1 & _ & _ & C1 & L1 & N1).
    destruct (run_attempt_ok _ _ _ _ _ _ _ _ _ E2) as (A2 & _ & _ & C2 & L2 & N2).
    destruct (run_attempt_ok _ _ _ _ _ _ _ _ _ E3) as (A3 & _ & _ & C3 & L3 & N3).
    assert (rc o1 <> 0) as R1.
    { intros Hz. rewrite Hz in C1. apply classify_pass in C1. congruence. }
    assert (rc o2 <> 0) as R2.
    { intros Hz. rewrite Hz in C2. apply classify_pass in C2. congruence. }
    cbn [attempt_loop]. change (0 + 1) with 1. rewrite E1.
    destruct (Z.eqb_spec (rc o1) 0); [contradiction |].
    rewrite S1, Hmax. cbn [String.eqb Ascii.eqb Bool.eqb].
    change (1 >? 2) with false. cbv iota. change (1 + 1) with 2. rewrite E2.
    destruct (Z.eqb_spec (rc o2) 0); [contradiction |].
    rewrite S2. cbn [String.eqb Ascii.eqb Bool.eqb].
    change (2 >? 2) with false. cbv iota. change (2 + 1) with 3. rewrite E3, R3.
    cbn [Z.eqb]. eexists. split; [reflexivity |].
    rewrite R3 in C3. apply classify_pass in C3.
    repeat split; try assumption.
    all: change (?x :: tr3) with ([x] ++ tr3); change (?x :: ?y ++ ?z) with ([x] ++ y ++ z);
      rewrite !count_app; rewrite ?L1, ?L2, ?L3, ?N1, ?N2, ?N3; reflexivity.
Qed.

Lemma C8_retry_bound_witness :
  exists tr o1 o2 o3,
    attempt_loop 3 demo_args demo_env defaults 1 0 = Some (tr, Ok [o1; o2; o3]) /\
    classification o1 = "SOFT_FAIL" /\ classification o2 = "SOFT_FAIL" /\
    attempt o3 = 3 /\ classification o3 = "PASS" /\
    count is_loop_iteration tr = 3%nat.
Proof.
  destruct C8_retry_bound as (_ & _ & H).
  destruct (run_attempt demo_args demo_env defaults 1 1) as [tr1 [[[o1 rs1] p1] | ex1]] eqn:E1;
    [| vm_compute in E1; discriminate].
  destruct (run_attempt demo_args demo_env defaults 1 2) as [tr2 [[[o2 rs2] p2] | ex2]] eqn:E2;
    [| vm_compute in E2; discriminate].
  destruct (run_attempt demo_args demo_env defaults 1 3) as [tr3 [[[o3 rs3] p3] | ex3]] eqn:E3;
    [| vm_compute in E3; discriminate].
  assert (classification o1 = "SOFT_FAIL") as S1
    by (vm_compute in E1; injection E1 as _ <- _ _; reflexivity).
  assert (classification o2 = "SOFT_FAIL") as S2
    by (vm_compute in E2; injection E2 as _ <- _ _; reflexivity).
  assert (rc o3 = 0) as R3
    by (vm_compute in E3; injection E3 as _ <- _ _; reflexivity).
  destruct (H 3%nat demo_args demo_env defaults 1 _ _ _ _ _ _ _ _ _ _ _ _
              eq_refl (le_n 3) E1 S1 E2 S2 E3 R3) as (tr & Hrun & Ha & Hc & Hn & _).
  exists tr, o1, o2, o3. repeat split; assumption.
Defined.

(** *** The exit status *)

Lemma iteration_loop_attempts a e policy fuel n : forall i tr os,
  iteration_loop fuel a e policy n i = Some (tr, Ok os) ->
  Forall (fun o => 1 <= attempt o) os.
Proof.
  induction n as [| n IH]; intros i tr os H; cbn [iteration_loop] in H.
  - injection H as <- <-. constructor.
  - destruct (attempt_loop fuel a e policy i 0) as [[tr1 [os1 | ex]] |] eqn:E1;
      try discriminate.
    destruct (iteration_loop fuel a e policy n (i + 1)) as [[tr2 [os2 | ex]] |] eqn:E2;
      try discriminate.
    injection H as <- <-. apply Forall_app. split; [| eapply IH; eassumption].
    destruct (attempt_loop_shape _ _ _ _ _ _ _ _ E1) as (_ & _ & _ & Hall).
    apply Forall_lookup. intros k o Hk. destruct (Hall k o Hk) as (Ha & _). lia.
Qed.

Lemma any_nonzero_Exists os :
  Forall (fun o => 1 <= attempt o) os ->
  any_nonzero os = true <-> Exists (fun o => rc o <> 0) os.
Proof.
  intros HF. unfold any_nonzero. rewrite existsb_exists, List.Exists_exists.
  rewrite List.Forall_forall in HF.
  split; intros (o & Hin & Ho); exists o; (split; [assumption |]).
  - apply andb_true_iff in Ho as [Ho _]. apply negb_true_iff in Ho. lia.
  - apply andb_true_iff. split; [apply negb_true_iff; lia |].
    specialize (HF o Hin). lia.
Qed.

(** C3. In the gated run [demo_args], [demo_env] the only iteration
    fails softly twice and ends PASS on its third attempt, and [main]
    returns 1. In general, when [main] returns, its status is 1 when the
    run is gated and some attempt of some iteration, final or not,
    returned a nonzero code, and 0 otherwise. *)
Theorem C3_gated_exit_status :
  (exists tr o1 o2 o3 tr',
     iteration_loop 3 demo_args demo_env (loaded_policy demo_args demo_env) 1 1
       = Some (tr, Ok [o1; o2; o3]) /\
     classification o1 = "SOFT_FAIL" /\ rc o1 = 1 /\
     classification o2 = "SOFT_FAIL" /\ rc o2 = 1 /\
     attempt o3 = 3 /\ classification o3 = "PASS" /\ rc o3 = 0 /\
     gated demo_args = true /\
     main 3 demo_args demo_env = Some (tr', Ok 1)) /\
  (forall fuel a e tr st,
     main fuel a e = Some (tr, Ok st) ->
     exists tr' os,
       iteration_loop fuel a e (loaded_policy a e) (Z.to_nat (iterations a)) 1
         = Some (tr', Ok os) /\
       (st = 1 <-> gated a = true /\ Exists (fun o => rc o <> 0) os) /\
       (st = 0 <-> ~ (gated a = true /\ Exists (fun o => rc o <> 0) os))).
Proof.
  split.
  - vm_compute. do 5 eexists. repeat split.
  - intros fuel a e tr st H. unfold main in H.
    destruct (iterations a <=? 0); [discriminate |].
    destruct (interval_seconds a <? 0); [discriminate |].
    destruct (max_retries a <? 0); [discriminate |].
    destruct (iteration_loop fuel a e (loaded_policy a e) (Z.to_nat (iterations a)) 1)
      as [[tr' [os | ex]] |] eqn:E; try discriminate.
    injection H as _ <-. exists tr', os. split; [reflexivity |].
    pose proof (any_nonzero_Exists os (iteration_loop_attempts _ _ _ _ _ _ _ _ E)) as Hany.
    destruct (gated a); cbn [andb]; [destruct (any_nonzero os) |].
    + assert (Exists (fun o => rc o <> 0) os) as Hex by now apply Hany.
      split; split.
      * intros _. split; [reflexivity | exact Hex].
      * reflexivity.
      * intros H0. discriminate H0.
      * intros Hn. exfalso. apply Hn. split; [reflexivity | exact Hex].
    + assert (~ Exists (fun o => rc o <> 0) os) as Hno
        by (intros Hex; apply Hany in Hex; discriminate Hex).
      split; split.
      * intros H0. discriminate H0.
      * intros [_ Hex]. contradiction.
      * intros _ [_ Hex]. contradiction.
      * reflexivity.
    + split; split.
      * intros H0. discriminate H0.
      * intros [Hg _]. discriminate Hg.
      * intros _ [Hg _]. discriminate Hg.
      * reflexivity.
Qed.

Lemma C3_gated_exit_status_witness :
  exists tr' os,
    iteration_loop 3 demo_args demo_env (loaded_policy demo_args demo_env)
      (Z.to_nat (iterations demo_args)) 1 = Some (tr', Ok os) /\
    (1 = 1 <-> gated demo_args = true /\ Exists (fun o => rc o <> 0) os).
Proof.
  destruct C3_gated_exit_status as (_ & H).
  destruct (main 3 demo_args demo_env) as [[tr [st | ex]] |] eqn:E;
    try (vm_compute in E; discriminate).
  assert (st = 1) as -> by (vm_compute in E; injection E as _ <-; reflexivity).
  destruct (H _ _ _ _ _ E) as (tr' & os & Hrun & H1 & _).
  exists tr', os. split; assumption.
Defined.

End loop_facts.

(* ===================================================================== *)
(** * Further properties of the three modules *)
(* ===================================================================== *)

(** ** Digests *)

Section digest_facts.

(** A character of a lower-case hexadecimal numeral. *)
Definition is_hex_char (c : ascii) : Prop :=
  In c (list_ascii_of_string "0123456789abcdef").

Fixpoint all_chars (P : ascii -> Prop) (s : string) : Prop :=
  match s with
  | String c t => P c /\ all_chars P t
  | EmptyString => True
  end.

Lemma all_chars_app P s t : all_chars P s -> all_chars P t -> all_chars P (s ++ t)%string.
Proof.
  induction s as [| c s IH]; cbn [all_chars String.append]; [auto |].
  intros [Hc Hs] Ht. split; [assumption | now apply IH].
Qed.

Lemma string_length_app (s t : string) :
  String.length (s ++ t)%string = (String.length s + String.length t)%nat.
Proof.
  induction s as [| c s IH]; [reflexivity |].
  change (String.length (String c (s ++ t)%string)
          = (S (String.length s) + String.length t)%nat).
  cbn [String.length]. now rewrite IH.
Qed.

Lemma hex_digit_is_hex n : 0 <= n < 16 -> is_hex_char (hex_digit n).
Proof.
  intros Hn.
  assert (exists k, (k < 16)%nat /\ n = Z.of_nat k) as (k & Hk & ->)
    by (exists (Z.to_nat n); lia).
  do 16 (destruct k as [| k]; [vm_compute; tauto |]). lia.
Qed.

Lemma be_bytes_range n x : Forall (fun b => 0 <= b < 256) (be_bytes n x).
Proof.
  induction n as [| n IH]; cbn [be_bytes]; constructor; [| assumption].
  apply Z.mod_pos_bound. lia.
Qed.

Lemma be_bytes_length n x : length (be_bytes n x) = n.
Proof. induction n as [| n IH]; cbn [be_bytes length]; congruence. Qed.

Lemma hex_of_bytes_shape bs :
  Forall (fun b => 0 <= b < 256) bs ->
  String.length (String.concat "" (List.map hex_of_byte bs)) = (2 * length bs)%nat /\
  all_chars is_hex_char (String.concat "" (List.map hex_of_byte bs)).
Proof.
  intros HF. induction HF as [| b bs Hb _ [IHl IHc]]; [split; [reflexivity | exact I] |].
  assert (all_chars is_hex_char (hex_of_byte b)) as Hhex.
  { unfold hex_of_byte. cbn [all_chars]. repeat split; apply hex_digit_is_hex.
    - split; [apply Z.div_pos; lia | apply Z.div_lt_upper_bound; lia].
    - apply Z.mod_pos_bound. lia. }
  cbn [List.map String.concat length].
  destruct (List.map hex_of_byte bs) as [| s rest] eqn:E.
  - destruct bs; [| discriminate]. split; [reflexivity | exact Hhex].
  - change (String.concat "" (hex_of_byte b :: s :: rest))
      with (hex_of_byte b ++ String.concat "" (s :: rest))%string.
    split.
    + rewrite !string_length_app, IHl. unfold hex_of_byte. cbn [String.length length]. lia.
    + apply all_chars_app; [exact Hhex | exact IHc].
Qed.

(** The hex digest of any text is 64 lower-case hexadecimal characters;
    in particular it is never the empty string that marks the start of
    a chain. *)
Theorem sha256_text_shape text :
  String.length (_sha256_text text) = 64%nat /\
  all_chars is_hex_char (_sha256_text text) /\
  _sha256_text text <> "".
Proof.
  unfold _sha256_text, hexdigest.
  assert (Forall (fun b => 0 <= b < 256)
            (flat_map (be_bytes 4) (digest_words (bytes_of_string text)))) as HF.
  { apply Forall_flat_map. apply Forall_forall. intros w _. apply be_bytes_range. }
  assert (length (flat_map (be_bytes 4) (digest_words (bytes_of_string text))) = 32%nat) as HL.
  { unfold digest_words. cbn [flat_map]. rewrite !length_app, !be_bytes_length. reflexivity. }
  destruct (hex_of_bytes_shape _ HF) as [Hlen Hhex]. rewrite HL in Hlen.
  split; [assumption | split; [assumption |]].
  intros Hempty. rewrite Hempty in Hlen. discriminate.
Qed.

End digest_facts.

(** ** More on the ledger *)

Section ledger_more.
Import ledger.

Lemma lookup_key_set_key_eq k v d : lookup_key k (set_key k v d) = Some v.
Proof.
  induction d as [| [k0 w] d IH]; cbn [set_key lookup_key].
  - now rewrite String.eqb_refl.
  - destruct (String.eqb_spec k0 k) as [-> | Hne]; cbn [lookup_key].
    + now rewrite String.eqb_refl.
    + destruct (String.eqb_spec k0 k); [contradiction | apply IH].
Qed.

Lemma differs_true v s : v <> JStr s -> differs v s = true.
Proof.
  destruct v as [| | | | t | |]; try reflexivity.
  intros Hne. cbn. destruct (String.eqb_spec t s); [congruence | reflexivity].
Qed.



(** A malformed line put at the end of a ledger file is reported under
    its line number, counted as an entry, and makes the report not ok;
    what was reported about the lines before it is unchanged. *)
Theorem malformed_line_is_reported lines rep :
  verify (Some lines) = Ok rep ->
  verify (Some (lines ++ [Invalid])) =
    Ok {| report_ok := false; total_entries := total_entries rep + 1;
          report_reasons :=
            report_reasons rep ++ [reason_at (Z.of_nat (length lines) + 1) "invalid json"] |}.
Proof.
  intros H.
  assert (Forall object_line lines) as HF by (apply verify_returns; eauto).
  rewrite verify_report in H by assumption. injection H as <-.
  rewrite verify_report by (apply Forall_app; split; [assumption | repeat constructor]).
  rewrite all_findings_app, count_nonblank_app.
  cbn [all_findings app count_nonblank nonblank findings report_ok total_entries
       report_reasons length].
  replace (no_findings (all_findings [] lines
                        ++ [reason_at (Z.of_nat (length lines) + 1) "invalid json"]))
    with false by (destruct (all_findings [] lines); reflexivity).
  reflexivity.
Qed.

Lemma malformed_line_is_reported_witness :
  verify (Some (demo_lines ++ [Invalid])) =
    Ok {| report_ok := false; total_entries := 3;
          report_reasons := ["line 3: invalid json"] |}.
Proof.
  assert (verify (Some demo_lines)
          = Ok {| report_ok := true; total_entries := 2; report_reasons := [] |}) as H
    by (vm_compute; reflexivity).
  rewrite (malformed_line_is_reported _ _ H). reflexivity.
Defined.

(** In a ledger that verifies, an entry whose stored previous_hash is
    replaced by anything but the hash of the entry before it is flagged
    with "global previous_hash mismatch" at its line (and with "hash
    mismatch" too unless the digest of the changed content still equals
    the stored hash); nothing is reported about the other lines, which
    are all still counted. *)
Theorem wrong_previous_hash_is_flagged l1 d l2 v h rep :
  verify (Some (l1 ++ Doc (JObj d) :: l2)) = Ok rep -> report_ok rep = true ->
  lookup_key "hash" d = Some (JStr h) ->
  v <> JStr (last_hash l1) ->
  verify (Some (l1 ++ Doc (JObj (set_key "previous_hash" v d)) :: l2)) =
    Ok {| report_ok := false; total_entries := total_entries rep;
          report_reasons :=
            (if String.eqb (content_hash (set_key "previous_hash" v d)) h then []
             else [reason_at (Z.of_nat (length l1) + 1) "hash mismatch"])
            ++ [reason_at (Z.of_nat (length l1) + 1) "global previous_hash mismatch"] |}.
Proof.
  intros H Hok Hh Hv.
  destruct (verified_clean _ _ H Hok) as [[HF Hc] Htot].
  apply Forall_app in HF as [HF1 HF2]. inversion HF2 as [| ? ? _ HF3]; subst.
  rewrite all_findings_app in Hc. cbn [all_findings app length] in Hc.
  apply app_eq_nil in Hc as [Hc1 Hc]. apply app_eq_nil in Hc as [Hcx Hc2].
  rewrite verify_report
    by (apply Forall_app; split; [assumption | constructor; [exact I | assumption]]).
  rewrite all_findings_app, Hc1. cbn [all_findings app length].
  assert (entry_of (Doc (JObj (set_key "previous_hash" v d))) = entry_of (Doc (JObj d)))
    as He by (unfold entry_of; now rewrite !lookup_key_set_key_ne by discriminate).
  rewrite (all_findings_ext l2 _ (l1 ++ [Doc (JObj d)]));
    [| now rewrite !length_app | now rewrite !entries_snoc, He].
  rewrite Hc2, app_nil_r, Htot, !count_nonblank_app. cbn [count_nonblank nonblank].
  revert Hcx. unfold findings. rewrite He.
  rewrite lookup_key_set_key_eq, lookup_key_set_key_ne by discriminate.
  destruct (entry_of (Doc (JObj d))) as [[lyr h'] |] eqn:E; [| discriminate].
  assert (h' = h) as ->.
  { unfold entry_of in E. rewrite Hh in E.
    destruct (lookup_key "layer" d) as [[| | | | ? | |] |]; congruence. }
  intros Hcx. apply app_eq_nil in Hcx as [_ Hrest]. apply app_eq_nil in Hrest as [_ Hl].
  rewrite Hl. cbn [default from_option id]. rewrite (differs_true _ _ Hv), app_nil_r.
  destruct (String.eqb _ h); reflexivity.
Qed.

Lemma wrong_previous_hash_is_flagged_witness :
  exists d,
    demo_lines !! 1%nat = Some (Doc (JObj d)) /\
    verify (Some (take 1 demo_lines
                  ++ Doc (JObj (set_key "previous_hash" (JStr "") d)) :: drop 2 demo_lines)) =
      Ok {| report_ok := false; total_entries := 2;
            report_reasons :=
              ["line 2: hash mismatch"; "line 2: global previous_hash mismatch"] |}.
Proof.
  destruct (demo_lines !! 1%nat) as [[| | [| | | | | | d]] |] eqn:E;
    try (vm_compute in E; discriminate).
  exists d. split; [reflexivity |].
  assert (lookup_key "hash" d
          = Some (JStr "630da8ebfc416a6ed92cf6221f030cf6108bf8ba7643f98166eae116ff70daa4"))
    as Hh by (vm_compute in E; injection E as <-; reflexivity).
  assert (verify (Some (take 1 demo_lines ++ Doc (JObj d) :: drop 2 demo_lines))
          = Ok {| report_ok := true; total_entries := 2; report_reasons := [] |}) as Hv
    by (vm_compute in E; injection E as <-; vm_compute; reflexivity).
  rewrite (wrong_previous_hash_is_flagged _ _ _ (JStr "") _ _ Hv eq_refl Hh)
    by (vm_compute; discriminate).
  vm_compute in E. injection E as <-. vm_compute. reflexivity.
Defined.

(** In a ledger that verifies, replacing the payload of one stored entry
    by any value, its other fields and its hash untouched, is found out
    whenever the digest of the changed content differs from the stored
    hash: [verify] reports exactly one finding, "hash mismatch" at that
    line, and still counts every line. *)
Theorem changed_payload_is_flagged l1 d l2 payload h rep :
  verify (Some (l1 ++ Doc (JObj d) :: l2)) = Ok rep -> report_ok rep = true ->
  lookup_key "hash" d = Some (JStr h) ->
  content_hash (set_key "data" payload d) <> h ->
  verify (Some (l1 ++ Doc (JObj (set_key "data" payload d)) :: l2)) =
    Ok {| report_ok := false; total_entries := total_entries rep;
          report_reasons := [reason_at (Z.of_nat (length l1) + 1) "hash mismatch"] |}.
Proof.
  intros H Hok Hh Hne.
  destruct (verified_clean _ _ H Hok) as [[HF Hc] Htot].
  apply Forall_app in HF as [HF1 HF2]. inversion HF2 as [| ? ? _ HF3]; subst.
  rewrite all_findings_app in Hc. cbn [all_findings app length] in Hc.
  apply app_eq_nil in Hc as [Hc1 Hc]. apply app_eq_nil in Hc as [Hcx Hc2].
  rewrite verify_report
    by (apply Forall_app; split; [assumption | constructor; [exact I | assumption]]).
  rewrite all_findings_app, Hc1. cbn [all_findings app length].
  rewrite (all_findings_ext l2 _ (l1 ++ [Doc (JObj d)]));
    [| now rewrite !length_app | now rewrite !entries_snoc, entry_of_set_data].
  rewrite Hc2, app_nil_r, Htot, !count_nonblank_app. cbn [count_nonblank nonblank].
  assert (findings (Z.of_nat (length l1) + 1) l1 (Doc (JObj (set_key "data" payload d)))
          = [reason_at (Z.of_nat (length l1) + 1) "hash mismatch"]) as ->; [| reflexivity].
  revert Hcx. unfold findings. rewrite entry_of_set_data.
  rewrite !(lookup_key_set_key_ne _ "data") by discriminate.
  destruct (entry_of (Doc (JObj d))) as [[lyr h'] |] eqn:He; [| discriminate].
  assert (h' = h) as ->.
  { unfold entry_of in He. rewrite Hh in He.
    destruct (lookup_key "layer" d) as [[| | | | ? | |] |]; congruence. }
  intros Hcx. apply app_eq_nil in Hcx as [_ Hrest]. rewrite Hrest.
  destruct (String.eqb_spec (content_hash (set_key "data" payload d)) h);
    [contradiction | reflexivity].
Qed.

Lemma changed_payload_is_flagged_witness :
  exists d,
    demo_lines !! 1%nat = Some (Doc (JObj d)) /\
    verify (Some (take 1 demo_lines
                  ++ Doc (JObj (set_key "data" (JObj [("status", JStr "DEGRADED")]) d))
                  :: drop 2 demo_lines)) =
      Ok {| report_ok := false; total_entries := 2;
            report_reasons := ["line 2: hash mismatch"] |}.
Proof.
  destruct (demo_lines !! 1%nat) as [[| | [| | | | | | d]] |] eqn:E;
    try (vm_compute in E; discriminate).
  exists d. split; [reflexivity |].
  assert (lookup_key "hash" d
          = Some (JStr "630da8ebfc416a6ed92cf6221f030cf6108bf8ba7643f98166eae116ff70daa4"))
    as Hh by (vm_compute in E; injection E as <-; reflexivity).
  assert (take 1 demo_lines ++ Doc (JObj d) :: drop 2 demo_lines = demo_lines) as Hsplit
    by (vm_compute in E; injection E as <-; reflexivity).
  assert (verify (Some (take 1 demo_lines ++ Doc (JObj d) :: drop 2 demo_lines))
          = Ok {| report_ok := true; total_entries := 2; report_reasons := [] |}) as Hv
    by (rewrite Hsplit; vm_compute; reflexivity).
  rewrite (changed_payload_is_flagged _ _ _ _ _ _ Hv eq_refl Hh).
  - reflexivity.
  - vm_compute in E. injection E as <-. vm_compute. discriminate.
Defined.

(** Cutting a ledger that verifies after any of its lines leaves a ledger
    that verifies: [verify] cannot tell that entries were removed from
    the end. *)
Theorem truncated_ledger_verifies l1 l2 rep :
  verify (Some (l1 ++ l2)) = Ok rep -> report_ok rep = true ->
  verify (Some l1) =
    Ok {| report_ok := true; total_entries := count_nonblank l1; report_reasons := [] |}.
Proof.
  intros H Hok. destruct (verified_clean _ _ H Hok) as [[HF Hc] _].
  apply Forall_app in HF as [HF1 _]. rewrite all_findings_app in Hc.
  apply app_eq_nil in Hc as [Hc1 _].
  apply verify_clean. split; assumption.
Qed.

Lemma truncated_ledger_verifies_witness :
  verify (Some (take 1 demo_lines)) =
    Ok {| report_ok := true; total_entries := 1; report_reasons := [] |}.
Proof.
  assert (verify (Some (take 1 demo_lines ++ drop 1 demo_lines))
          = Ok {| report_ok := true; total_entries := 2; report_reasons := [] |}) as H
    by (vm_compute; reflexivity).
  rewrite (truncated_ledger_verifies _ _ _ H eq_refl). reflexivity.
Defined.

(** *** When [append] raises *)





(** *** The chain of a ledger built by [append] *)





(** *** The hashes cached in the ledger object *)








(** *** [tail] *)


(** [tail n] gives nothing for [n <= 0] or a missing file; otherwise it
    gives the last [n] parsed lines of the file in file order, all of them
    when there are fewer than [n]. It reads the file without judging it:
    the lines need not be entries. *)
Theorem tail_is_the_end_of_the_file n f :
  (n <= 0 -> tail n f = []) /\
  tail n None = [] /\
  (0 < n ->
   exists before,
     _iter_entries f = before ++ tail n f /\
     length (tail n f) = Nat.min (Z.to_nat n) (length (_iter_entries f))).
Proof.
  split; [| split].
  - intros Hn. unfold tail. destruct (Z.leb_spec n 0); [reflexivity | lia].
  - unfold tail. destruct (n <=? 0); reflexivity.
  - intros Hn. unfold tail. destruct (Z.leb_spec n 0); [lia |].
    exists (firstn (length (_iter_entries f) - Z.to_nat n) (_iter_entries f)).
    split; [now rewrite firstn_skipn |]. rewrite length_skipn. lia.
Qed.

Lemma tail_is_the_end_of_the_file_witness :
  exists before,
    _iter_entries (Some (Invalid :: demo_lines ++ [Doc (JInt 7)]))
      = before ++ tail 2 (Some (Invalid :: demo_lines ++ [Doc (JInt 7)])) /\
    length (tail 2 (Some (Invalid :: demo_lines ++ [Doc (JInt 7)]))) = 2%nat.
Proof.
  destruct (tail_is_the_end_of_the_file 2 (Some (Invalid :: demo_lines ++ [Doc (JInt 7)])))
    as (_ & _ & H).
  destruct (H ltac:(lia)) as (before & Hsplit & Hlen).
  exists before. split; [exact Hsplit |]. rewrite Hlen. reflexivity.
Defined.



End ledger_more.

(** ** More on the classification *)

Section classify_more.
Import loop_runner.

(** The status the controller reads in the data of a layer. *)
Definition layer_status (data : list (string * json)) : string :=
  upper (py_str (default (JStr "UNKNOWN") (lookup_key "status" data))).

(** A layer that gives a hard reason under [policy]: its status is one of
    the hard statuses, or it is DEGRADED and the layer is one of the
    layers that are hard on DEGRADED. *)
Definition hard_hit (policy : ClassificationPolicy) (kv : string * json) : bool :=
  match snd kv with
  | JObj data =>
      bool_decide (layer_status data ∈ hard_statuses policy)
      || (String.eqb (layer_status data) "DEGRADED"
          && bool_decide (lower (fst kv) ∈ hard_layers_on_degraded policy))
  | _ => false
  end.

(** The layer map of a report, when it has one. *)
Definition layer_map (report : option json) : option (list (string * json)) :=
  match report with
  | Some (JObj r) =>
      match lookup_key "layers" r with
      | Some (JObj layers) => Some layers
      | _ => None
      end
  | _ => None
  end.

Lemma nonempty_push {A} (l : list A) x : nonempty (push l x) = true.
Proof. unfold push. destruct l; reflexivity. Qed.

Lemma classify_layer_hard policy acc kv :
  nonempty (fst (classify_layer policy acc kv))
  = nonempty (fst acc) || hard_hit policy kv.
Proof.
  unfold classify_layer, hard_hit. destruct (snd kv) as [| | | | | | data];
    try (now rewrite orb_false_r).
  fold (layer_status data).
  destruct (decide (layer_status data ∈ hard_statuses policy)) as [Hin | Hout].
  - rewrite bool_decide_eq_true_2 by assumption. cbn [fst orb].
    now rewrite nonempty_push, orb_true_r.
  - rewrite bool_decide_eq_false_2 by assumption. cbn [orb].
    destruct (String.eqb (layer_status data) "DEGRADED"); cbn [andb].
    + destruct (decide (lower (fst kv) ∈ hard_layers_on_degraded policy)).
      * rewrite bool_decide_eq_true_2 by assumption. cbn [fst].
        now rewrite nonempty_push, orb_true_r.
      * rewrite bool_decide_eq_false_2 by assumption. cbn [fst]. now rewrite orb_false_r.
    + destruct (decide (layer_status data ∈ soft_statuses policy)); cbn [fst];
        now rewrite orb_false_r.
Qed.

Lemma classify_fold_hard policy layers : forall acc,
  nonempty (fst (fold_left (classify_layer policy) layers acc))
  = nonempty (fst acc) || existsb (hard_hit policy) layers.
Proof.
  induction layers as [| kv layers IH]; intros acc; cbn [fold_left existsb].
  - now rewrite orb_false_r.
  - rewrite IH, classify_layer_hard. now rewrite orb_assoc.
Qed.

Lemma classify_with_layer_map report rc policy layers :
  rc <> 0 -> layer_map report = Some layers ->
  exists reasons,
    _classify report rc policy =
      Ok (if existsb (hard_hit policy) layers then "HARD_FAIL" else "SOFT_FAIL",
          if existsb (hard_hit policy) layers then "emit_alert" else "retry",
          reasons) /\
    reasons <> [].
Proof.
  intros Hrc Hmap. unfold layer_map in Hmap.
  destruct report as [[| | | | | | r] |]; try discriminate.
  destruct (lookup_key "layers" r) as [[| | | | | | layers0] |] eqn:El; try discriminate.
  injection Hmap as ->.
  unfold _classify. destruct (Z.eqb_spec rc 0); [contradiction |].
  unfold _failing_layers_from_report. rewrite El. cbn [bind].
  pose proof (classify_fold_hard policy layers ([], [])) as Hfold.
  destruct (fold_left (classify_layer policy) layers ([], [])) as [hard soft].
  cbn [fst nonempty orb] in Hfold. rewrite <- Hfold.
  destruct hard as [| x hard]; cbn [nonempty].
  - match goal with |- context [nonempty ?failing || nonempty soft] =>
      destruct failing as [| y failing']; destruct soft as [| z soft'];
      cbn [nonempty orb] end;
      eexists; (split; [reflexivity | discriminate]).
  - eexists. split; [reflexivity | discriminate].
Qed.

(** With a nonzero return code and a report that has a layer map, the
    classification is HARD_FAIL (action emit_alert) if some layer gives a
    hard reason and SOFT_FAIL (action retry) otherwise, whatever else the
    report holds: a hard reason anywhere outranks every soft one, the
    result is never PASS, and at least one reason is given. *)
Theorem classification_of_a_failed_check report rc policy layers :
  rc <> 0 -> layer_map report = Some layers ->
  exists reasons,
    _classify report rc policy =
      Ok (if existsb (hard_hit policy) layers then "HARD_FAIL" else "SOFT_FAIL",
          if existsb (hard_hit policy) layers then "emit_alert" else "retry",
          reasons) /\
    reasons <> [].
Proof. exact (classify_with_layer_map report rc policy layers). Qed.

Lemma classification_of_a_failed_check_witness :
  exists reasons,
    _classify
      (Some (JObj [("layers",
                    JObj [("physical", JObj [("status", JStr "degraded")]);
                          ("meta", JObj [("status", JStr "Corrupted")])])]))
      1 defaults = Ok ("HARD_FAIL", "emit_alert", reasons) /\
    reasons <> [].
Proof.
  exact (classification_of_a_failed_check
           (Some (JObj [("layers",
                         JObj [("physical", JObj [("status", JStr "degraded")]);
                               ("meta", JObj [("status", JStr "Corrupted")])])]))
           1 defaults _ ltac:(discriminate) eq_refl).
Defined.

(** Whenever [_classify] returns under a policy that keeps the policy
    invariant, the classification is one of PASS, SOFT_FAIL, HARD_FAIL and
    the action is the one that goes with it (log_only, retry, emit_alert);
    a nonzero return code always comes with at least one reason; and PASS
    is given only for return code 0, or through a fallback that the
    policy sets to PASS for a report that is missing or has no layer
    map. *)
Theorem classification_is_well_formed report rc policy cls action reasons :
  policy_ok policy ->
  _classify report rc policy = Ok (cls, action, reasons) ->
  In cls classifications /\
  action = action_of cls /\
  (rc <> 0 -> reasons <> []) /\
  (cls = "PASS" ->
   rc = 0 \/
   (report = None /\ treat_missing_report_as policy = "PASS") \/
   (report <> None /\ layer_map report = None /\ treat_missing_layers_as policy = "PASS")).
Proof.
  intros (Hr & Hl & _) H.
  destruct (Z.eq_dec rc 0) as [-> | Hrc].
  { cbn in H. injection H as <- <- <-.
    repeat split; [left; reflexivity | congruence | intros _; now left]. }
  destruct (layer_map report) as [layers |] eqn:Hmap.
  { destruct (classify_with_layer_map report rc policy layers Hrc Hmap)
      as (rs & Hc & Hne).
    rewrite Hc in H. injection H as <- <- <-.
    destruct (existsb (hard_hit policy) layers);
      (repeat split; [cbn; tauto | intros _; assumption | discriminate]). }
  unfold _classify in H. destruct (Z.eqb_spec rc 0); [contradiction |].
  destruct report as [report |].
  - assert (_failing_layers_from_report report = Raise AttributeError \/
            exists fl, _failing_layers_from_report report = Ok fl) as [Hf | [fl Hf]].
    { unfold _failing_layers_from_report.
      destruct report as [| | | | | | r]; eauto.
      destruct (lookup_key "layers" r) as [[| | | | | | layers] |]; eauto. }
    { rewrite Hf in H. discriminate. }
    rewrite Hf in H. cbn [bind] in H.
    assert (cls = treat_missing_layers_as policy /\ action = action_of cls /\
            reasons = ["missing_layers_in_report"]) as (-> & -> & ->).
    { unfold layer_map in Hmap.
      destruct report as [| | | | | | r]; try (injection H as <- <- <-; auto).
      destruct (lookup_key "layers" r) as [[| | | | | | layers] |];
        try discriminate; injection H as <- <- <-; auto. }
    repeat split; [assumption | discriminate |].
    intros Hp. right. right. repeat split; [discriminate | assumption].
  - injection H as <- <- <-.
    repeat split; [assumption | discriminate |].
    intros Hp. right. left. split; [reflexivity | assumption].
Qed.

Lemma classification_is_well_formed_witness :
  In "HARD_FAIL" classifications /\ "emit_alert" = action_of "HARD_FAIL".
Proof.
  destruct (classification_is_well_formed
              (Some (JObj [("host", JStr "node0")])) 2 defaults
              "HARD_FAIL" "emit_alert" ["missing_layers_in_report"]
              defaults_ok eq_refl) as (H1 & H2 & _).
  split; assumption.
Defined.

(** The classification and the action do not depend on the order in
    which the report lists its layers (the reasons do). *)
Theorem classification_ignores_layer_order rc policy r r' layers layers' :
  lookup_key "layers" r = Some (JObj layers) ->
  lookup_key "layers" r' = Some (JObj layers') ->
  Permutation layers layers' ->
  exists cls action reasons reasons',
    _classify (Some (JObj r)) rc policy = Ok (cls, action, reasons) /\
    _classify (Some (JObj r')) rc policy = Ok (cls, action, reasons').
Proof.
  intros Hl Hl' HP.
  destruct (Z.eq_dec rc 0) as [-> | Hrc].
  { exists "PASS", "log_only", [], []. split; reflexivity. }
  assert (layer_map (Some (JObj r)) = Some layers) as Hm by (cbn; now rewrite Hl).
  assert (layer_map (Some (JObj r')) = Some layers') as Hm' by (cbn; now rewrite Hl').
  destruct (classify_with_layer_map _ rc policy _ Hrc Hm) as (rs & Hc & _).
  destruct (classify_with_layer_map _ rc policy _ Hrc Hm') as (rs' & Hc' & _).
  assert (existsb (hard_hit policy) layers' = existsb (hard_hit policy) layers) as He.
  { apply eq_true_iff_eq. rewrite !existsb_exists.
    split; intros (x & Hin & Hx); exists x; split; try assumption.
    - eapply Permutation_in; [symmetry; eassumption | assumption].
    - eapply Permutation_in; eassumption. }
  rewrite He in Hc'.
  do 2 eexists. exists rs, rs'. split; [exact Hc | exact Hc'].
Qed.

Lemma classification_ignores_layer_order_witness :
  exists cls action reasons reasons',
    _classify
      (Some (JObj [("layers", JObj [("physical", JObj [("status", JStr "DEGRADED")]);
                                    ("codex", JObj [("status", JStr "DEGRADED")])])]))
      1 defaults = Ok (cls, action, reasons) /\
    _classify
      (Some (JObj [("layers", JObj [("codex", JObj [("status", JStr "DEGRADED")]);
                                    ("physical", JObj [("status", JStr "DEGRADED")])])]))
      1 defaults = Ok (cls, action, reasons').
Proof.
  apply (classification_ignores_layer_order 1 defaults
           [("layers", JObj [("physical", JObj [("status", JStr "DEGRADED")]);
                             ("codex", JObj [("status", JStr "DEGRADED")])])]
           [("layers", JObj [("codex", JObj [("status", JStr "DEGRADED")]);
                             ("physical", JObj [("status", JStr "DEGRADED")])])]
           [("physical", JObj [("status", JStr "DEGRADED")]);
            ("codex", JObj [("status", JStr "DEGRADED")])]
           [("codex", JObj [("status", JStr "DEGRADED")]);
            ("physical", JObj [("status", JStr "DEGRADED")])]
           eq_refl eq_refl).
  apply perm_swap.
Defined.

(** A layer that is a hard reason under the built-in policy: its status,
    read without regard to case, is CORRUPTED or OVERLOADED, or it is
    DEGRADED and the layer, named without regard to case, is meta, codex
    or digital. *)
Definition default_hard (kv : string * json) : Prop :=
  exists data,
    snd kv = JObj data /\
    (layer_status data = "CORRUPTED" \/ layer_status data = "OVERLOADED" \/
     (layer_status data = "DEGRADED" /\ In (lower (fst kv)) ["meta"; "codex"; "digital"])).

Lemma hard_hit_defaults kv : hard_hit defaults kv = true <-> default_hard kv.
Proof.
  unfold hard_hit, default_hard. destruct kv as [name v]. cbn [fst snd].
  destruct v as [| | | | | | data];
    try (split; [discriminate | intros (d & Hd & _); discriminate]).
  rewrite orb_true_iff, andb_true_iff, !bool_decide_eq_true, String.eqb_eq.
  unfold defaults. cbn [hard_statuses hard_layers_on_degraded].
  rewrite !elem_of_union, !elem_of_singleton. cbn [In].
  split.
  - intros H. exists data. split; [reflexivity |]. intuition.
  - intros (d & [= <-] & H). intuition.
Qed.

(** Under the built-in policy a failed check (nonzero return code, layer
    map present) is HARD_FAIL exactly when some layer is CORRUPTED or
    OVERLOADED, or DEGRADED on meta, codex or digital, and SOFT_FAIL in
    every other case. *)
Theorem default_policy_classification report rc layers :
  rc <> 0 -> layer_map report = Some layers ->
  exists cls action reasons,
    _classify report rc defaults = Ok (cls, action, reasons) /\
    (cls = "HARD_FAIL" <-> Exists default_hard layers) /\
    (cls = "SOFT_FAIL" <-> ~ Exists default_hard layers).
Proof.
  intros Hrc Hmap.
  destruct (classify_with_layer_map report rc defaults layers Hrc Hmap)
    as (rs & Hc & _).
  do 2 eexists. exists rs. split; [exact Hc |].
  assert (existsb (hard_hit defaults) layers = true <-> Exists default_hard layers) as Hex.
  { rewrite existsb_exists, List.Exists_exists.
    split; intros (x & Hin & Hx); exists x; (split; [assumption |]);
      now apply hard_hit_defaults. }
  destruct (existsb (hard_hit defaults) layers).
  - assert (Exists default_hard layers) as He by now apply Hex.
    split; split; try reflexivity; try discriminate; try tauto.
  - assert (~ Exists default_hard layers) as He
      by (intros He; apply Hex in He; discriminate).
    split; split; try reflexivity; try discriminate; try tauto.
Qed.

Lemma default_policy_classification_witness :
  exists cls action reasons,
    _classify
      (Some (JObj [("layers", JObj [("physical", JObj [("status", JStr "DEGRADED")])])]))
      1 defaults = Ok (cls, action, reasons) /\
    (cls = "SOFT_FAIL" <->
     ~ Exists default_hard [("physical", JObj [("status", JStr "DEGRADED")])]).
Proof.
  destruct (default_policy_classification
              (Some (JObj [("layers",
                            JObj [("physical", JObj [("status", JStr "DEGRADED")])])]))
              1 [("physical", JObj [("status", JStr "DEGRADED")])]
              ltac:(discriminate) eq_refl) as (cls & action & reasons & Hc & _ & Hs).
  exists cls, action, reasons. split; assumption.
Defined.

End classify_more.
